(** * pyssa.simulation: the [Simulation] wrapper around the direct-method engine

    A shallow embedding of [src/pyssa/simulation.py].

    - NumPy arrays are modelled by value: a 2-D integer array is its shape
      together with its rows, a 1-D array is a list.  Stoichiometric
      coefficients and species counts are the entries of arrays of dtype
      int64, NumPy's default for integers: they are integers ([Z]) and the
      sums NumPy takes of them wrap around at 64 bits; rate constants,
      times and the volume are binary64 floats ([PrimFloat.float]).
    - Python exceptions, warnings and the mutation of [self._results] are
      modelled in a state-and-exception monad in which the state survives a
      raised exception, as it does in Python.
    - [direct_naive] (module [pyssa.direct_naive]) is an external call of
      [simulate]: it is a parameter of the development, every call to it is
      recorded in the world's call log, and it may read and advance the
      process-wide random generator.  It is taken to return, and to leave
      the arrays it is given as they are. *)

From Stdlib Require Import ZArith String List Bool Lia.
From Stdlib Require Import PrimFloat FloatOps FloatAxioms SpecFloat.
From Stdlib Require Import DecimalString.
Import ListNotations.
Open Scope string_scope.
Open Scope list_scope.
Open Scope Z_scope.

(** ** Python values and exceptions *)

Module Py.

(** The values a caller may pass for the [chem_flag] argument: the
    built-in scalars. *)
Inductive value : Type :=
| Bool (b : bool)
| Int (z : Z)
| Float (f : float)
| Str (s : string)
| NoneV.

Definition int_of_bool (b : bool) : Z := if b then 1 else 0.

Definition float_of_bool (b : bool) : float :=
  if b then 1%float else 0%float.

(** [f == z] for a float and an integer, which Python compares by their
    exact values: a finite float is its signed mantissa times a power of
    two. *)
Definition float_eq_int (f : float) (z : Z) : bool :=
  match Prim2SF f with
  | S754_zero _ => z =? 0
  | S754_finite sg m e =>
      let v := if sg then Z.neg m else Z.pos m in
      if 0 <=? e then z =? v * 2 ^ e else z * 2 ^ (- e) =? v
  | _ => false
  end.

(** Python's [==].  [bool] is a subclass of [int]: [True == 1] and
    [False == 0], and numbers compare by value across [int] and
    [float]. *)
Definition eqv (x y : value) : bool :=
  match x, y with
  | Bool a, Bool b => Bool.eqb a b
  | Bool a, Int z | Int z, Bool a => int_of_bool a =? z
  | Bool a, Float f | Float f, Bool a => PrimFloat.eqb f (float_of_bool a)
  | Int a, Int b => a =? b
  | Int z, Float f | Float f, Int z => float_eq_int f z
  | Float f, Float g => PrimFloat.eqb f g
  | Str a, Str b => String.eqb a b
  | NoneV, NoneV => true
  | _, _ => false
  end.

(** [x in t] for a tuple [t]: some element is equal to [x]. *)
Definition contains (x : value) (t : list value) : bool :=
  existsb (fun e => eqv x e) t.

Definition is_bool (x : value) : bool :=
  match x with Bool _ => true | _ => false end.

Inductive exn : Type :=
| ValueError (msg : string)
| IndexError (msg : string).

(** [range(n)] for a Python [int]: empty when [n <= 0]. *)
Definition range (n : Z) : list Z := map Z.of_nat (seq 0 (Z.to_nat n)).

End Py.

(** ** NumPy arrays *)

Module Np.

(** A 2-D integer array: [shape0] rows of [shape1] entries each. *)
Record ndarray2 : Type := mk_ndarray2 {
  shape0 : nat;
  shape1 : nat;
  rows : list (list Z)
}.

(** [a.shape] *)
Definition shape (a : ndarray2) : nat * nat := (shape0 a, shape1 a).

Definition wf (a : ndarray2) : bool :=
  (length (rows a) =? shape0 a)%nat
  && forallb (fun r => (length r =? shape1 a)%nat) (rows a).

(** [np.array(rows)] for a non-empty list of rows. *)
Definition array2 (l : list (list Z)) : ndarray2 :=
  {| shape0 := length l; shape1 := length (hd [] l); rows := l |}.

(** [np.any(v < 0)] on a 1-D integer array. *)
Definition any_neg (v : list Z) : bool := existsb (fun x => x <? 0) v.

(** [np.any(a < 0)] on a 2-D integer array. *)
Definition any_neg2 (a : ndarray2) : bool := existsb any_neg (rows a).

(** [np.any(v < 0)] on a 1-D float array. *)
Definition any_negf (v : list float) : bool :=
  existsb (fun x => PrimFloat.ltb x 0%float) v.

(** The value an int64 holds when the integer [z] is stored in it. *)
Definition wrap64 (z : Z) : Z := (z + 2 ^ 63) mod 2 ^ 64 - 2 ^ 63.

(** The sum of two int64, which wraps around. *)
Definition add64 (x y : Z) : Z := wrap64 (x + y).

(** [np.sum(r)] on a 1-D int64 array: the result is an int64. *)
Definition sum1 (r : list Z) : Z := fold_left add64 r 0.

(** [np.sum(a, 1)]: the sum of every row. *)
Definition sum_axis1 (a : ndarray2) : list Z := map sum1 (rows a).

Definition zero_size_msg : string :=
  "zero-size array to reduction operation maximum which has no identity".

(** [np.max(v)]: the reduction has no identity, an empty array raises
    [ValueError]. *)
Definition max (v : list Z) : Py.exn + Z :=
  match v with
  | [] => inl (Py.ValueError zero_size_msg)
  | x :: xs => inr (fold_left Z.max xs x)
  end.

End Np.

(** ** State and exceptions *)

Section Monad.

Context {S : Type}.

Inductive outcome (A : Type) : Type :=
| Ok (a : A)
| Raise (e : Py.exn).

Definition M (A : Type) : Type := S -> outcome A * S.

Definition ret {A} (a : A) : M A := fun s => (Ok A a, s).

Definition raise {A} (e : Py.exn) : M A := fun s => (Raise A e, s).

Definition bind {A B} (c : M A) (k : A -> M B) : M B :=
  fun s =>
    match c s with
    | (Ok _ a, s') => k a s'
    | (Raise _ e, s') => (Raise B e, s')
    end.

Definition modify (f : S -> S) : M unit := fun s => (Ok unit tt, f s).

(** [if c: raise e] *)
Definition raise_if (c : bool) (e : Py.exn) : M unit :=
  if c then raise e else ret tt.

(** [for x in l: acc = body x acc] *)
Fixpoint for_each {A B} (l : list A) (body : A -> B -> M B) (acc : B) : M B :=
  match l with
  | [] => ret acc
  | x :: l' => bind (body x acc) (for_each l' body)
  end.

End Monad.

Arguments M : clear implicits.
Arguments Ok {A} a.
Arguments Raise {A} e.

Declare Scope py_scope.
Delimit Scope py_scope with py.
Notation "x <- c ;; k" := (bind c (fun x => k))
  (at level 61, c at next level, right associativity) : py_scope.
Notation "c ;; k" := (bind c (fun _ => k))
  (at level 61, right associativity) : py_scope.
Open Scope py_scope.
Notation "' pat <- c ;; k" :=
  (bind c (fun x => match x with pat => k end))
  (at level 61, pat pattern, c at next level, right associativity) : py_scope.

(** An operation of NumPy or of a Python container that either raises or
    returns, run inside the monad. *)
Definition lift {S A} (r : Py.exn + A) : M S A :=
  match r with
  | inl e => raise e
  | inr a => ret a
  end.

(** [l[i]] on a Python list: a negative index counts from the end, an
    index out of range raises [IndexError]. *)
Definition getitem {A} (l : list A) (i : Z) : Py.exn + A :=
  let j := if i <? 0 then i + Z.of_nat (length l) else i in
  if j <? 0 then inl (Py.IndexError "list index out of range")
  else match nth_error l (Z.to_nat j) with
       | Some x => inr x
       | None => inl (Py.IndexError "list index out of range")
       end.

(** ** The engine's interface and the results container *)

(** The positional arguments of one call
    [direct_naive(react_stoic, prod_stoic, init_state, k_det, max_t,
    max_iter, volume, seed, chem_flag)]. *)
Record EngineArgs : Type := mk_EngineArgs {
  a_react_stoic : Np.ndarray2;
  a_prod_stoic : Np.ndarray2;
  a_init_state : list Z;
  a_k_det : list float;
  a_max_t : float;
  a_max_iter : Z;
  a_volume : float;
  a_seed : Z;
  a_chem_flag : Py.value
}.

(** Modelled from the spec: the triple [(t, X, status)] a call to
    [direct_naive] returns, whose module is not among the sources: the times
    of the trajectory, the state at each of them, and the exit status as
    the integer the docstring of [simulate] lists. *)
Record EngineOut : Type := mk_EngineOut {
  out_t : list float;
  out_X : list (list Z);
  out_status : Z
}.

(** Modelled from the spec: the class [Results] of [pyssa/results.py],
    which is not among the sources.  It is the presentation layer's
    container of the per-replicate times, states and statuses:
    [Results(tlist, xlist, status_list, algorithm, seed)] keeps its five
    arguments; [plot] reads the first three as [t_list], [x_list] and
    [status_list]. *)
Record Results : Type := mk_Results {
  t_list : list (list float);
  x_list : list (list (list Z));
  status_list : list Z;
  r_algorithm : string;
  r_seed : list Z
}.

(** The attributes of a [Simulation] instance. *)
Record Simulation : Type := mk_Simulation {
  _react_stoic : Np.ndarray2;
  _prod_stoic : Np.ndarray2;
  _init_state : list Z;
  _k_det : list float;
  _chem_flag : Py.value;
  _nr : nat;
  _ns : nat;
  _volume : float;
  _orders : list Z;
  _results : option Results
}.

Definition set_results (self : Simulation) (r : option Results) : Simulation :=
  {| _react_stoic := _react_stoic self;
     _prod_stoic := _prod_stoic self;
     _init_state := _init_state self;
     _k_det := _k_det self;
     _chem_flag := _chem_flag self;
     _nr := _nr self;
     _ns := _ns self;
     _volume := _volume self;
     _orders := _orders self;
     _results := r |}.

(** The messages of the exceptions and of the warning, as in the source. *)
Module Msg.
Definition shape := "react_stoic and prod_stoic should be the same shape.".
Definition react_neg := "react_stoic cannot have negative elements.".
Definition prod_neg := "V_p cannot have negative elements.".
Definition init_neg := "Initial numbers in X0 can't be negative.".
Definition k_neg := "Rate constant(s) can't be negative.".
Definition k_len := "Number of rate constants must equal number of reactions".
Definition chem_flag := "chem_flag must be a boolean True or False.".
Definition order := "Order greater than 3 not suppported.".
Definition seed_len := "Seed should be as long as n_rep".
Definition algorithm := "Requested algorithm not supported".
Definition no_results :=
  "Run `Simulation.simulate` before requesting the results object".
End Msg.

(** ** The class [Simulation] *)

Section Simulation.

(** The state of the process-wide random generator. *)
Variable G : Type.

(** The engine: given the arguments of the call and the generator's
    state, the returned triple and the generator's new state. *)
Variable direct_naive : EngineArgs -> G -> EngineOut * G.

(** What a run of the program can observe besides the instance: the
    generator, the calls made to the engine (oldest first) and the
    warnings issued (oldest first). *)
Record world : Type := mk_world {
  rng : G;
  calls : list EngineArgs;
  warnings : list string
}.

(** A method runs on the instance and the world. *)
Definition heap : Type := (Simulation * world)%type.

Definition get_self : M heap Simulation := fun h => (Ok (fst h), h).

Definition warn (msg : string) : M heap unit :=
  modify (fun h : heap =>
    (fst h, {| rng := rng (snd h);
               calls := calls (snd h);
               warnings := warnings (snd h) ++ [msg] |})).

Definition call_direct_naive (a : EngineArgs) : M heap EngineOut :=
  fun h =>
    let (o, g) := direct_naive a (rng (snd h)) in
    (Ok o, (fst h, {| rng := g;
                      calls := calls (snd h) ++ [a];
                      warnings := warnings (snd h) |})).

Definition _check_consistency {S} (self : Simulation) : M S unit :=
  raise_if (negb (_nr self =? Np.shape0 (_prod_stoic self))%nat
            || negb (_ns self =? Np.shape1 (_prod_stoic self))%nat)
           (Py.ValueError Msg.shape) ;;
  raise_if (Np.any_neg2 (_react_stoic self)) (Py.ValueError Msg.react_neg) ;;
  raise_if (Np.any_neg2 (_prod_stoic self)) (Py.ValueError Msg.prod_neg) ;;
  raise_if (Np.any_neg (_init_state self)) (Py.ValueError Msg.init_neg) ;;
  raise_if (Np.any_negf (_k_det self)) (Py.ValueError Msg.k_neg) ;;
  raise_if (negb (length (_k_det self) =? _nr self)%nat)
           (Py.ValueError Msg.k_len) ;;
  raise_if (negb (Py.contains (_chem_flag self) [Py.Bool true; Py.Bool false]))
           (Py.ValueError Msg.chem_flag) ;;
  m <- lift (Np.max (_orders self)) ;;
  raise_if (3 <? m) (Py.ValueError Msg.order).

(** [Simulation(react_stoic, prod_stoic, init_state, k_det, chem_flag,
    volume)]; the defaults of the last two are [False] and [1.0]. *)
Definition __init__ (react_stoic prod_stoic : Np.ndarray2)
    (init_state : list Z) (k_det : list float)
    (chem_flag : Py.value) (volume : float) : M world Simulation :=
  let self :=
    {| _react_stoic := react_stoic;
       _prod_stoic := prod_stoic;
       _init_state := init_state;
       _k_det := k_det;
       _chem_flag := chem_flag;
       _nr := Np.shape0 react_stoic;
       _ns := Np.shape1 react_stoic;
       _volume := volume;
       _orders := Np.sum_axis1 react_stoic;
       _results := None |} in
  _check_consistency self ;;
  ret self.

(** The property [results]. *)
Definition results : M heap (option Results) :=
  self <- get_self ;;
  match _results self with
  | None => warn Msg.no_results ;; ret (_results self)
  | Some _ => ret (_results self)
  end.

(** One pass of the loop body of [simulate]. *)
Definition replicate (max_t : float) (max_iter : Z) (volume : float)
    (seed : list Z) (index : Z)
    (acc : list (list float) * list (list (list Z)) * list Z)
    : M heap (list (list float) * list (list (list Z)) * list Z) :=
  let '(tlist, xlist, status_list) := acc in
  self <- get_self ;;
  s <- lift (getitem seed index) ;;
  o <- call_direct_naive
         {| a_react_stoic := _react_stoic self;
            a_prod_stoic := _prod_stoic self;
            a_init_state := _init_state self;
            a_k_det := _k_det self;
            a_max_t := max_t;
            a_max_iter := max_iter;
            a_volume := volume;
            a_seed := s;
            a_chem_flag := _chem_flag self |} ;;
  ret (tlist ++ [out_t o], xlist ++ [out_X o], status_list ++ [out_status o]).

(** [simulate(max_t, max_iter, volume, seed, n_rep, algorithm)]; the
    defaults are [10.0], [1000], [1.0], [None], [1] and
    ["direct_naive"]. *)
Definition simulate (max_t : float) (max_iter : Z) (volume : float)
    (seed : option (list Z)) (n_rep : Z) (algorithm : string)
    : M heap unit :=
  seed <- match seed with
          | Some l =>
              raise_if (negb (n_rep =? Z.of_nat (length l)))
                       (Py.ValueError Msg.seed_len) ;;
              ret l
          | None => ret (Py.range n_rep)
          end ;;
  if String.eqb algorithm "direct_naive" then
    ' (tlist, xlist, status_list) <-
      for_each (Py.range n_rep) (replicate max_t max_iter volume seed)
               ([], [], []) ;;
    modify (fun h : heap =>
      (set_results (fst h)
         (Some (mk_Results tlist xlist status_list algorithm seed)),
       snd h))
  else raise (Py.ValueError Msg.algorithm).

End Simulation.

Arguments mk_world {G} rng calls warnings.
Arguments rng {G} w.
Arguments calls {G} w.
Arguments warnings {G} w.

(** The arguments of [Simulation(...)], for stating properties of whole
    constructor calls. *)
Record InitArgs : Type := mk_InitArgs {
  i_react_stoic : Np.ndarray2;
  i_prod_stoic : Np.ndarray2;
  i_init_state : list Z;
  i_k_det : list float;
  i_chem_flag : Py.value;
  i_volume : float
}.

Definition construct {G} (a : InitArgs) : M (world G) Simulation :=
  __init__ G (i_react_stoic a) (i_prod_stoic a) (i_init_state a) (i_k_det a)
           (i_chem_flag a) (i_volume a).

(** The instance an accepted construction leaves behind. *)
Definition instance (a : InitArgs) : Simulation :=
  {| _react_stoic := i_react_stoic a;
     _prod_stoic := i_prod_stoic a;
     _init_state := i_init_state a;
     _k_det := i_k_det a;
     _chem_flag := i_chem_flag a;
     _nr := Np.shape0 (i_react_stoic a);
     _ns := Np.shape1 (i_react_stoic a);
     _volume := i_volume a;
     _orders := Np.sum_axis1 (i_react_stoic a);
     _results := None |}.

(** The orders as the data model words them, to compare with [_orders]:
    [order[r]] is the sum over the species [s] of [reactantStoic[r][s]]. *)
Definition order_of_row (row : list Z) : Z := fold_right Z.add 0 row.

Definition orders_spec (react_stoic : Np.ndarray2) : list Z :=
  map order_of_row (Np.rows react_stoic).

(** An integer an int64 can hold. *)
Definition in_int64 (z : Z) : Prop := - 2 ^ 63 <= z < 2 ^ 63.

(** The orders as int64 hold them. *)
Definition orders_int64 (react_stoic : Np.ndarray2) : list Z :=
  map Np.wrap64 (orders_spec react_stoic).

(** Some entry of a 2-D array, or of a 1-D array, is negative; for a float
    the test is the source's [x < 0]. *)
Definition has_neg2 (a : Np.ndarray2) : Prop :=
  exists row x, In row (Np.rows a) /\ In x row /\ x < 0.

Definition has_neg (v : list Z) : Prop := exists x, In x v /\ x < 0.

Definition has_negf (v : list float) : Prop :=
  exists x, In x v /\ PrimFloat.ltb x 0%float = true.

(** Every entry is non-negative. *)
Definition nonneg2 (a : Np.ndarray2) : Prop :=
  forall row x, In row (Np.rows a) -> In x row -> 0 <= x.

Definition nonneg (v : list Z) : Prop := forall x, In x v -> 0 <= x.

Definition nonnegf (v : list float) : Prop :=
  forall x, In x v -> PrimFloat.leb 0%float x = true.


(** The messages of the four negativity checks. *)
Definition negativity_msgs : list string :=
  [Msg.react_neg; Msg.prod_neg; Msg.init_neg; Msg.k_neg].

(** The arguments [simulate] passes to the engine for the replicate whose
    seed is [s]. *)
Definition engine_args (self : Simulation) (max_t : float) (max_iter : Z)
    (volume : float) (s : Z) : EngineArgs :=
  {| a_react_stoic := _react_stoic self;
     a_prod_stoic := _prod_stoic self;
     a_init_state := _init_state self;
     a_k_det := _k_det self;
     a_max_t := max_t;
     a_max_iter := max_iter;
     a_volume := volume;
     a_seed := s;
     a_chem_flag := _chem_flag self |}.

(** The engine run on a sequence of calls, one after the other, from the
    generator state [g]: the triples in call order and the final state. *)
Fixpoint run_engine {G} (direct_naive : EngineArgs -> G -> EngineOut * G)
    (l : list EngineArgs) (g : G) : list EngineOut * G :=
  match l with
  | [] => ([], g)
  | a :: l' =>
      let (o, g1) := direct_naive a g in
      let (os, g2) := run_engine direct_naive l' g1 in
      (o :: os, g2)
  end.

(** The world once the engine has served the calls [l]. *)
Definition world_after {G} (direct_naive : EngineArgs -> G -> EngineOut * G)
    (w : world G) (l : list EngineArgs) : world G :=
  {| rng := snd (run_engine direct_naive l (rng w));
     calls := calls w ++ l;
     warnings := warnings w |}.

(** The results [simulate] stores from the triples [outs] of its calls. *)
Definition collect (outs : list EngineOut) (algorithm : string)
    (seed : list Z) : Results :=
  mk_Results (map out_t outs) (map out_X outs) (map out_status outs)
             algorithm seed.

(** A seed list was supplied and its length is not [n_rep]. *)
Definition seed_mismatch (seed : option (list Z)) (n_rep : Z) : bool :=
  match seed with
  | Some l => negb (n_rep =? Z.of_nat (length l))
  | None => false
  end.

(** The seeds [simulate] works with once its first statement has passed. *)
Definition seeds_used (seed : option (list Z)) (n_rep : Z) : list Z :=
  match seed with
  | Some l => l
  | None => Py.range n_rep
  end.

(** ** Test fixtures *)

(** The systems of [src/tests/conftest.py]. *)
Module Fixtures.

Definition V_r : Np.ndarray2 := Np.array2 [[1; 0; 0]; [0; 1; 0]].
Definition V_p : Np.ndarray2 := Np.array2 [[0; 1; 0]; [0; 0; 1]].
Definition X0 : list Z := [100; 0; 0].
Definition k : list float := [1%float; 1%float].

(** [setup_system]'s volume. *)
Definition volume : float := 7%float.

(** [Simulation(V_r, V_p, X0, k, chem_flag, volume)]. *)
Definition basic (chem_flag : Py.value) (volume : float) : InitArgs :=
  {| i_react_stoic := V_r; i_prod_stoic := V_p; i_init_state := X0;
     i_k_det := k; i_chem_flag := chem_flag; i_volume := volume |}.

(** A network of three species and no reaction. *)
Definition no_reaction : InitArgs :=
  {| i_react_stoic := Np.mk_ndarray2 0 3 [];
     i_prod_stoic := Np.mk_ndarray2 0 3 [];
     i_init_state := X0; i_k_det := [];
     i_chem_flag := Py.Bool false; i_volume := 1%float |}.

(** The pair of the rejected construction: a reactant matrix of shape
    (2,3) with a product matrix of shape (3,2). *)
Definition mismatched : InitArgs :=
  {| i_react_stoic := V_r;
     i_prod_stoic := Np.array2 [[0; 1]; [0; 0]; [1; 0]];
     i_init_state := X0; i_k_det := k;
     i_chem_flag := Py.Bool false; i_volume := 1%float |}.

(** A world in which nothing has happened yet; the generator's state is
    of no concern to the constructor. *)
Definition w0 : world unit := mk_world tt [] [].

(** A stand-in for the engine on which to run [simulate]: it reports the
    initial sample alone and the status 3, and leaves the generator. *)
Definition engine0 (a : EngineArgs) (g : unit) : EngineOut * unit :=
  ({| out_t := [0%float]; out_X := [a_init_state a]; out_status := 3 |}, g).

(** The instance [Simulation(V_r, V_p, X0, k)] builds. *)
Definition sim0 : Simulation := instance (basic (Py.Bool false) 1%float).

End Fixtures.

(** ** Plotting *)

(** [X[:, j]] on a 2-D array given by its rows, of which there is at least
    one: the entries of column [j], a negative [j] counting from the last
    column; [IndexError] when [j] is out of the bounds of the rows.  NumPy's
    message names the index and the size, which is left out here. *)
Definition np_column (X : list (list Z)) (j : Z) : Py.exn + list Z :=
  let inb (r : list Z) :=
    (- Z.of_nat (length r) <=? j) && (j <? Z.of_nat (length r)) in
  if forallb inb X
  then inr (map (fun r =>
                  nth (Z.to_nat (if j <? 0 then j + Z.of_nat (length r) else j))
                      r 0) X)
  else inl (Py.IndexError "index is out of bounds for axis 1").

(** One call [plt.plot(t, x, color=c)]. *)
Record Line : Type := mk_Line {
  l_t : list float;
  l_x : list Z;
  l_color : string
}.

(** What [plot] reads and writes: the colours of
    [plt.rcParams['axes.prop_cycle']], what has been printed, the lines
    drawn (oldest first) and the number of calls of [plt.show()]. *)
Record canvas : Type := mk_canvas {
  cycle_colors : list string;
  printed : list (list string);
  lines : list Line;
  shown : nat
}.

Definition get_canvas : M canvas canvas := fun cv => (Ok cv, cv).

Definition print_colors (colors : list string) : M canvas unit :=
  modify (fun cv =>
    {| cycle_colors := cycle_colors cv;
       printed := printed cv ++ [colors];
       lines := lines cv;
       shown := shown cv |}).

(** The decimal numeral of [n]. *)
Definition repr_nat (n : nat) : string :=
  NilEmpty.string_of_uint (Nat.to_uint n).

(** The message of matplotlib for abscissae and ordinates of [n] and [m]
    entries. *)
Definition first_dimension_msg (n m : nat) : string :=
  "x and y must have same first dimension, but have shapes ("
  ++ repr_nat n ++ ",) and (" ++ repr_nat m ++ ",)".

(** [plt.plot(t, x, color=c)] for two 1-D arrays and a colour of the
    cycle: matplotlib raises [ValueError] when the two differ in length,
    and draws the line otherwise. *)
Definition plt_plot (t : list float) (x : list Z) (c : string) : M canvas unit :=
  if negb (length t =? length x)%nat
  then raise (Py.ValueError (first_dimension_msg (length t) (length x)))
  else modify (fun cv =>
    {| cycle_colors := cycle_colors cv;
       printed := printed cv;
       lines := lines cv ++ [mk_Line t x c];
       shown := shown cv |}).

Definition plt_show : M canvas unit :=
  modify (fun cv =>
    {| cycle_colors := cycle_colors cv;
       printed := printed cv;
       lines := lines cv;
       shown := S (shown cv) |}).

(** The body of the inner loop of [plot]; the arguments of [plt.plot] are
    evaluated from left to right. *)
Definition plot_line (self : Simulation) (res : Results)
    (colors : list string) (ind index2 : Z) : M canvas unit :=
  t <- lift (getitem (t_list res) ind) ;;
  X <- lift (getitem (x_list res) ind) ;;
  x <- lift (np_column X index2) ;;
  c <- lift (getitem colors index2) ;;
  plt_plot t x c.

(** [plot(disp)]; the default of [disp] is [True].  The property cycle is
    taken to have colours, as every cycle of matplotlib's styles has. *)
Definition plot (self : Simulation) (disp : bool) : M canvas unit :=
  match _results self with
  | None => raise (Py.ValueError "Simulate not run.")
  | Some res =>
      cv <- get_canvas ;;
      let colors := cycle_colors cv in
      print_colors colors ;;
      for_each (Py.range (Z.of_nat (length (status_list res))))
        (fun ind _ =>
           for_each (Py.range (Z.of_nat (_ns self)))
             (fun index2 _ => plot_line self res colors ind index2) tt)
        tt ;;
      if disp then plt_show else ret tt
  end.

(** The lines a complete [plot] draws: for every replicate in turn, one
    line per species in turn, the replicate's times against the column of
    the species, in the colour of the species' index. *)
Definition lines_of (colors : list string) (ns : nat) (res : Results)
    : list Line :=
  flat_map (fun tX : list float * list (list Z) =>
              map (fun j => mk_Line (fst tX)
                                    (map (fun r => nth j r 0) (snd tX))
                                    (nth j colors ""))
                  (seq 0 ns))
           (combine (t_list res) (x_list res)).

(** The canvas with the lines [l] drawn on it. *)
Definition draw (cv : canvas) (l : list Line) : canvas :=
  {| cycle_colors := cycle_colors cv;
     printed := printed cv;
     lines := lines cv ++ l;
     shown := shown cv |}.


(** The canvas a complete [plot] leaves. *)
Definition canvas_after (cv : canvas) (ns : nat) (res : Results)
    (disp : bool) : canvas :=
  {| cycle_colors := cycle_colors cv;
     printed := printed cv ++ [cycle_colors cv];
     lines := lines cv ++ lines_of (cycle_colors cv) ns res;
     shown := if disp then S (shown cv) else shown cv |}.

(** ** Further definitions for the properties *)

(** The construction is accepted: it returns the instance and leaves the
    world. *)
Definition accepted {G} (a : InitArgs) (w : world G) : Prop :=
  construct a w = (Ok (instance a), w).

(** The arguments [a] with the rate constants [k]. *)
Definition with_k_det (a : InitArgs) (k : list float) : InitArgs :=
  {| i_react_stoic := i_react_stoic a;
     i_prod_stoic := i_prod_stoic a;
     i_init_state := i_init_state a;
     i_k_det := k;
     i_chem_flag := i_chem_flag a;
     i_volume := i_volume a |}.

(** What the check of [chem_flag] lets through. *)
Definition flag_passes (x : Py.value) : Prop :=
  (exists b, x = Py.Bool b) \/ x = Py.Int 0 \/ x = Py.Int 1 \/
  (exists f, x = Py.Float f /\
             (PrimFloat.eqb f 1%float = true \/
              PrimFloat.eqb f 0%float = true)).

(** The results hold as many states as times for every replicate. *)
Definition times_match_states (res : Results) : Prop :=
  Forall2 (fun (t : list float) (X : list (list Z)) => length t = length X)
          (t_list res) (x_list res).

(** A trajectory's states as the engine is to return them for [ns]
    species: at least the initial sample, and [ns] counts per sample. *)
Definition states_of (ns : nat) (X : list (list Z)) : Prop :=
  X <> [] /\ Forall (fun r => length r = ns) X.

(** The engine's triple is a function of the arguments of the call. *)
Definition seed_determined {G}
    (direct_naive : EngineArgs -> G -> EngineOut * G) : Prop :=
  forall a g1 g2, fst (direct_naive a g1) = fst (direct_naive a g2).

(** What the constructor requires of its arguments, in the order in which
    it checks, each with the message of the exception raised when it does
    not hold.  A rate constant is required not to be below zero, which a
    NaN is not; the orders are required to be at most three as int64 hold
    them. *)
Definition requirements (a : InitArgs) : list (Prop * string) :=
  [ (Np.shape (i_react_stoic a) = Np.shape (i_prod_stoic a), Msg.shape);
    (nonneg2 (i_react_stoic a), Msg.react_neg);
    (nonneg2 (i_prod_stoic a), Msg.prod_neg);
    (nonneg (i_init_state a), Msg.init_neg);
    (~ has_negf (i_k_det a), Msg.k_neg);
    (length (i_k_det a) = Np.shape0 (i_react_stoic a), Msg.k_len);
    (flag_passes (i_chem_flag a), Msg.chem_flag);
    (Np.rows (i_react_stoic a) <> [], Np.zero_size_msg);
    (Forall (fun o => o <= 3) (orders_int64 (i_react_stoic a)), Msg.order) ].

(** A system whose first reaction has two coefficients of [2^62]: their
    sum is [2^63], which an int64 holds as [-2^63]. *)
Module EdgeFixtures.


End EdgeFixtures.

(** Matplotlib's default property cycle, and a canvas with nothing on
    it. *)
Module PlotFixtures.

Definition tab10 : list string :=
  ["#1f77b4"; "#ff7f0e"; "#2ca02c"; "#d62728"; "#9467bd";
   "#8c564b"; "#e377c2"; "#7f7f7f"; "#bcbd22"; "#17becf"].

Definition cv0 : canvas := mk_canvas tab10 [] [] 0.

(** The instance of the fixtures after [simulate(seed=[5, 7], n_rep=2)] on
    the stand-in engine. *)
Definition sim2 : Simulation :=
  fst (snd (simulate unit Fixtures.engine0 10%float 1000 1%float
              (Some [5; 7]) 2 "direct_naive" (Fixtures.sim0, Fixtures.w0))).

(** A system of eleven species and one reaction without reactants, and
    its instance after one replicate on the stand-in engine. *)
Definition eleven : InitArgs :=
  {| i_react_stoic := Np.array2 [[0; 0; 0; 0; 0; 0; 0; 0; 0; 0; 0]];
     i_prod_stoic := Np.array2 [[1; 0; 0; 0; 0; 0; 0; 0; 0; 0; 0]];
     i_init_state := [0; 0; 0; 0; 0; 0; 0; 0; 0; 0; 0];
     i_k_det := [1%float];
     i_chem_flag := Py.Bool false; i_volume := 1%float |}.


End PlotFixtures.

(** * Properties *)

(** ** The fixtures *)

(** The arrays of the fixtures are rectangular, and the shapes of the
    mismatched pair are (2,3) and (3,2). *)
Example fixtures_shapes :
  Np.wf Fixtures.V_r && Np.wf Fixtures.V_p
  && Np.wf (i_react_stoic Fixtures.no_reaction)
  && Np.wf (i_prod_stoic Fixtures.mismatched) = true /\
  Np.shape (i_react_stoic Fixtures.mismatched) = (2%nat, 3%nat) /\
  Np.shape (i_prod_stoic Fixtures.mismatched) = (3%nat, 2%nat).
Proof. repeat split. Qed.

(** The fixtures' system is accepted, and [simulate] with three equal seeds
    on the stand-in engine stores three results in the order of the calls. *)
Example basic_run :
  construct (Fixtures.basic (Py.Bool false) 1%float) Fixtures.w0
  = (Ok Fixtures.sim0, Fixtures.w0) /\
  exists w',
    simulate unit Fixtures.engine0 10%float 1000 1%float (Some [5; 5; 5]) 3
             "direct_naive" (Fixtures.sim0, Fixtures.w0)
    = (Ok tt,
       (set_results Fixtures.sim0
          (Some {| t_list := [[0%float]; [0%float]; [0%float]];
                   x_list := [[Fixtures.X0]; [Fixtures.X0]; [Fixtures.X0]];
                   status_list := [3; 3; 3];
                   r_algorithm := "direct_naive";
                   r_seed := [5; 5; 5] |}), w')) /\
    map a_seed (calls w') = [5; 5; 5].
Proof. split; [reflexivity|]. eexists. split; reflexivity. Qed.

(** ** Sums, maxima and ranges *)

Lemma wrap64_in_int64 (z : Z) : in_int64 (Np.wrap64 z).
Proof.
  unfold in_int64, Np.wrap64.
  pose proof (Z.mod_pos_bound (z + 2 ^ 63) (2 ^ 64) ltac:(lia)). lia.
Qed.

Lemma wrap64_id (z : Z) : in_int64 z -> Np.wrap64 z = z.
Proof.
  unfold in_int64, Np.wrap64. intros H.
  rewrite Z.mod_small by lia. lia.
Qed.

Lemma wrap64_add_l (x y : Z) : Np.wrap64 (Np.wrap64 x + y) = Np.wrap64 (x + y).
Proof.
  unfold Np.wrap64. f_equal.
  replace ((x + 2 ^ 63) mod 2 ^ 64 - 2 ^ 63 + y + 2 ^ 63)
    with ((x + 2 ^ 63) mod 2 ^ 64 + y) by lia.
  rewrite Zplus_mod_idemp_l. f_equal. lia.
Qed.

Lemma fold_left_add64 (r : list Z) (acc : Z) :
  fold_left Np.add64 r (Np.wrap64 acc)
  = Np.wrap64 (acc + fold_right Z.add 0 r).
Proof.
  revert acc. induction r as [|x r IH]; intros acc; cbn [fold_left fold_right].
  - f_equal. lia.
  - unfold Np.add64 at 2. rewrite wrap64_add_l, IH. f_equal. lia.
Qed.

(** NumPy's sum of a row is the sum of its entries as an int64 holds
    it. *)
Lemma sum1_wraps (r : list Z) : Np.sum1 r = Np.wrap64 (order_of_row r).
Proof.
  unfold Np.sum1, order_of_row.
  change 0 with (Np.wrap64 0) at 1. now rewrite fold_left_add64.
Qed.

Lemma sum_axis1_orders_int64 (a : Np.ndarray2) :
  Np.sum_axis1 a = orders_int64 a.
Proof.
  unfold Np.sum_axis1, orders_int64, orders_spec. rewrite map_map.
  apply map_ext. exact sum1_wraps.
Qed.

(** Orders that an int64 can hold are stored as they are. *)
Lemma orders_int64_fit (a : Np.ndarray2) :
  Forall in_int64 (orders_spec a) -> orders_int64 a = orders_spec a.
Proof.
  unfold orders_int64. induction (orders_spec a) as [|o l IH]; intros H;
    [reflexivity|].
  apply Forall_cons_iff in H. destruct H as [Ho Hl].
  cbn [map]. now rewrite (wrap64_id o Ho), (IH Hl).
Qed.

Lemma order_of_row_nonneg (row : list Z) :
  (forall x, In x row -> 0 <= x) -> 0 <= order_of_row row.
Proof.
  induction row as [|x row IH]; intros H; cbn; [lia|].
  assert (0 <= x) by (apply H; now left).
  assert (0 <= order_of_row row) by (apply IH; intros y Hy; apply H; now right).
  unfold order_of_row in *. lia.
Qed.

Lemma fold_left_max_ge (xs : list Z) (x : Z) : x <= fold_left Z.max xs x.
Proof.
  revert x. induction xs as [|y xs IH]; intros x; simpl.
  - lia.
  - specialize (IH (Z.max x y)). lia.
Qed.

Lemma fold_left_max_In (xs : list Z) (x y : Z) :
  In y xs -> y <= fold_left Z.max xs x.
Proof.
  revert x. induction xs as [|z xs IH]; intros x Hin; simpl in *.
  - contradiction.
  - destruct Hin as [-> | Hin].
    + pose proof (fold_left_max_ge xs (Z.max x y)). lia.
    + now apply IH.
Qed.

Lemma fold_left_max_bound (xs : list Z) (x b : Z) :
  x <= b -> Forall (fun y => y <= b) xs -> fold_left Z.max xs x <= b.
Proof.
  revert x. induction xs as [|z xs IH]; intros x Hx Hall; simpl.
  - exact Hx.
  - inversion Hall; subst. apply IH; [lia | assumption].
Qed.

(** [np.max] is an upper bound of the array, and it is attained within any
    bound that holds of all entries. *)
Lemma np_max_spec (v : list Z) (m : Z) :
  Np.max v = inr m ->
  Forall (fun y => y <= m) v /\ forall b, Forall (fun y => y <= b) v -> m <= b.
Proof.
  destruct v as [|x xs]; simpl; [discriminate|].
  intros [= <-]. split.
  - constructor; [apply fold_left_max_ge|].
    apply Forall_forall. intros y Hy. now apply fold_left_max_In.
  - intros b Hb. inversion Hb; subst. now apply fold_left_max_bound.
Qed.

Lemma np_max_nonempty (v : list Z) :
  v <> [] -> exists m, Np.max v = inr m.
Proof.
  destruct v as [|x xs]; [congruence|]. intros _. eexists. reflexivity.
Qed.

Lemma any_neg_spec (v : list Z) : Np.any_neg v = true <-> has_neg v.
Proof.
  unfold Np.any_neg, has_neg. rewrite existsb_exists.
  split; intros (x & Hin & Hx); exists x; split; auto; lia.
Qed.

Lemma any_neg2_spec (a : Np.ndarray2) : Np.any_neg2 a = true <-> has_neg2 a.
Proof.
  unfold Np.any_neg2, has_neg2. rewrite existsb_exists. split.
  - intros (row & Hrow & Hneg). apply any_neg_spec in Hneg.
    destruct Hneg as (x & Hx & Hlt). now exists row, x.
  - intros (row & x & Hrow & Hx & Hlt). exists row. split; [assumption|].
    apply any_neg_spec. now exists x.
Qed.

Lemma any_negf_spec (v : list float) : Np.any_negf v = true <-> has_negf v.
Proof.
  unfold Np.any_negf, has_negf. now rewrite existsb_exists.
Qed.

Lemma range_length (n : Z) : length (Py.range n) = Z.to_nat n.
Proof.
  unfold Py.range. now rewrite length_map, length_seq.
Qed.

Lemma range_nth (n i : Z) :
  0 <= i < n -> nth_error (Py.range n) (Z.to_nat i) = Some i.
Proof.
  intros Hi. unfold Py.range.
  rewrite nth_error_map, nth_error_seq.
  destruct (Nat.ltb_spec (Z.to_nat i) (Z.to_nat n)); [|lia].
  simpl. f_equal. lia.
Qed.

(** ** Running the monad *)

Section MonadLemmas.

Context {S : Type}.

Lemma bind_ret {A B} (a : A) (k : A -> M S B) (s : S) :
  bind (ret a) k s = k a s.
Proof. reflexivity. Qed.

Lemma bind_raise {A B} (e : Py.exn) (k : A -> M S B) (s : S) :
  bind (raise e) k s = (Raise e, s).
Proof. reflexivity. Qed.

Lemma run_raise_if (c : bool) (e : Py.exn) (s : S) :
  raise_if c e s = if c then (Raise e, s) else (Ok tt, s).
Proof. now destruct c. Qed.

Lemma bind_raise_if {B} (c : bool) (e : Py.exn) (k : unit -> M S B) (s : S) :
  bind (raise_if c e) k s = if c then (Raise e, s) else k tt s.
Proof. now destruct c. Qed.

Lemma bind_lift {A B} (r : Py.exn + A) (k : A -> M S B) (s : S) :
  bind (lift r) k s =
  match r with
  | inl e => (Raise e, s)
  | inr a => k a s
  end.
Proof. now destruct r. Qed.

Lemma bind_assoc {A B C} (c : M S A) (k : A -> M S B) (k' : B -> M S C) (s : S) :
  bind (bind c k) k' s = bind c (fun a => bind (k a) k') s.
Proof.
  unfold bind. destruct (c s) as [[a|e] s']; reflexivity.
Qed.

End MonadLemmas.

(** ** The constructor's checks *)

(** The checks in the order of the source, and what each one raises.  The
    world is never touched. *)
Lemma check_consistency_run {S} (self : Simulation) (s : S) :
  _check_consistency self s =
  (if negb (_nr self =? Np.shape0 (_prod_stoic self))%nat
      || negb (_ns self =? Np.shape1 (_prod_stoic self))%nat
   then Raise (Py.ValueError Msg.shape)
   else if Np.any_neg2 (_react_stoic self)
   then Raise (Py.ValueError Msg.react_neg)
   else if Np.any_neg2 (_prod_stoic self)
   then Raise (Py.ValueError Msg.prod_neg)
   else if Np.any_neg (_init_state self)
   then Raise (Py.ValueError Msg.init_neg)
   else if Np.any_negf (_k_det self)
   then Raise (Py.ValueError Msg.k_neg)
   else if negb (length (_k_det self) =? _nr self)%nat
   then Raise (Py.ValueError Msg.k_len)
   else if negb (Py.contains (_chem_flag self) [Py.Bool true; Py.Bool false])
   then Raise (Py.ValueError Msg.chem_flag)
   else match Np.max (_orders self) with
        | inl e => Raise e
        | inr m => if 3 <? m then Raise (Py.ValueError Msg.order) else Ok tt
        end,
   s).
Proof.
  unfold _check_consistency.
  repeat (rewrite bind_raise_if;
          match goal with
          | |- (if ?c then _ else _) = _ => destruct c; [reflexivity|]
          end).
  rewrite bind_lift. destruct (Np.max (_orders self)) as [e|m]; [reflexivity|].
  rewrite run_raise_if. now destruct (3 <? m).
Qed.

Lemma construct_run {G} (a : InitArgs) (w : world G) :
  construct a w =
  (match fst (_check_consistency (S := world G) (instance a) w) with
   | Ok _ => Ok (instance a)
   | Raise e => Raise e
   end, w).
Proof.
  unfold construct, __init__. fold (instance a).
  unfold bind. rewrite check_consistency_run. cbn [fst].
  match goal with
  | |- match ?x with _ => _ end = _ => destruct x; reflexivity
  end.
Qed.

Lemma construct_world {G} (a : InitArgs) (w : world G) :
  snd (construct a w) = w.
Proof. now rewrite construct_run. Qed.

Lemma construct_Ok {G} (a : InitArgs) (w w' : world G) (self : Simulation) :
  construct a w = (Ok self, w') -> self = instance a /\ w' = w.
Proof.
  rewrite construct_run. intros [= H1 H2]. split; [|easy].
  destruct (fst _); congruence.
Qed.

Lemma float_nonneg_not_neg (x : float) :
  PrimFloat.leb 0%float x = true -> PrimFloat.ltb x 0%float = false.
Proof.
  rewrite leb_spec, ltb_spec.
  change (Prim2SF 0%float) with (S754_zero false).
  unfold SFleb, SFltb.
  destruct (Prim2SF x) as [s| s | |s m e]; simpl;
    try destruct s; simpl; congruence.
Qed.

Lemma nonneg_no_neg (v : list Z) : nonneg v -> Np.any_neg v = false.
Proof.
  intros H. destruct (Np.any_neg v) eqn:E; [|reflexivity].
  apply any_neg_spec in E. destruct E as (x & Hin & Hlt).
  specialize (H x Hin). lia.
Qed.

Lemma nonneg2_no_neg (a : Np.ndarray2) : nonneg2 a -> Np.any_neg2 a = false.
Proof.
  intros H. destruct (Np.any_neg2 a) eqn:E; [|reflexivity].
  apply any_neg2_spec in E. destruct E as (row & x & Hrow & Hin & Hlt).
  specialize (H row x Hrow Hin). lia.
Qed.

Lemma nonnegf_no_neg (v : list float) : nonnegf v -> Np.any_negf v = false.
Proof.
  intros H. destruct (Np.any_negf v) eqn:E; [|reflexivity].
  apply any_negf_spec in E. destruct E as (x & Hin & Hlt).
  rewrite (float_nonneg_not_neg x (H x Hin)) in Hlt. discriminate.
Qed.

(** Opens the checks of the constructor on the instance it builds. *)
Ltac open_checks :=
  rewrite ?construct_run; rewrite check_consistency_run;
  cbn [fst instance _nr _ns _react_stoic _prod_stoic _init_state _k_det
       _chem_flag _orders].

(** Decides the boolean tests in the goal one after the other, trying
    [tac] on every branch. *)
Ltac decide_tests tac :=
  repeat match goal with
         | |- context [if ?c then _ else _] => destruct c; try tac
         end.

Ltac raised := eexists; reflexivity.

(** Whatever the constructor raises is a [ValueError], and the world is as
    it was: no call has been made to the engine. *)
Lemma construct_raises_ValueError {G} (a : InitArgs) (w : world G) (e : Py.exn) :
  fst (construct a w) = Raise e -> exists msg, e = Py.ValueError msg.
Proof.
  rewrite construct_run, check_consistency_run. cbn [fst].
  decide_tests idtac;
    try (intros [= <-]; eexists; reflexivity).
  all: destruct (Np.max _) as [e'|m] eqn:Emax.
  all: try (destruct (3 <? m)); try discriminate.
  all: intros [= <-].
  all: try (eexists; reflexivity).
  all: destruct (_orders (instance a)); simpl in Emax; inversion Emax;
       eexists; reflexivity.
Qed.

Lemma construct_raises {G} (a : InitArgs) (w : world G) :
  (exists e, fst (_check_consistency (S := world G) (instance a) w) = Raise e) ->
  exists msg, construct a w = (Raise (Py.ValueError msg), w).
Proof.
  intros [e He].
  assert (Hfst : fst (construct a w) = Raise e)
    by (rewrite construct_run; cbn [fst]; now rewrite He).
  destruct (construct_raises_ValueError a w e Hfst) as [msg ->].
  exists msg. rewrite (surjective_pairing (construct a w)).
  now rewrite Hfst, construct_world.
Qed.

(** C3.  A reactant and a product matrix of different shapes, or a vector
    of rate constants whose length is not the number of rows of the
    reactant matrix, make the constructor raise a [ValueError]; no instance
    is returned and the world is unchanged, so no call to the engine has
    been made. *)
Theorem construct_rejects_shape_mismatch
    (G : Type) (a : InitArgs) (w : world G) :
  Np.shape (i_react_stoic a) <> Np.shape (i_prod_stoic a) \/
  length (i_k_det a) <> Np.shape0 (i_react_stoic a) ->
  exists msg, construct a w = (Raise (Py.ValueError msg), w).
Proof.
  intros H. apply construct_raises.
  open_checks.
  destruct (negb (Np.shape0 (i_react_stoic a) =? Np.shape0 (i_prod_stoic a))%nat
            || negb (Np.shape1 (i_react_stoic a) =? Np.shape1 (i_prod_stoic a))%nat)
    eqn:Eshape; [raised|].
  apply orb_false_elim in Eshape. destruct Eshape as [E0 E1].
  apply negb_false_iff, Nat.eqb_eq in E0, E1.
  destruct H as [H | H].
  { exfalso. apply H. unfold Np.shape. congruence. }
  apply Nat.eqb_neq in H. rewrite H. cbn [negb].
  decide_tests raised.
Qed.

Lemma construct_rejects_shape_mismatch_witness :
  exists msg,
    construct Fixtures.mismatched Fixtures.w0
    = (Raise (Py.ValueError msg), Fixtures.w0).
Proof.
  apply (construct_rejects_shape_mismatch unit Fixtures.mismatched Fixtures.w0).
  left. vm_compute. discriminate.
Defined.

(** C4.  A negative entry in the reactant matrix, the product matrix, the
    initial state or the rate constants makes the constructor raise a
    [ValueError]; when every entry of the four is non-negative, what the
    constructor returns is not the exception of any of the four negativity
    checks. *)
Theorem construct_negativity_checks
    (G : Type) (a : InitArgs) (w : world G) :
  (has_neg2 (i_react_stoic a) \/ has_neg2 (i_prod_stoic a) \/
   has_neg (i_init_state a) \/ has_negf (i_k_det a) ->
   exists msg, construct a w = (Raise (Py.ValueError msg), w)) /\
  (nonneg2 (i_react_stoic a) -> nonneg2 (i_prod_stoic a) ->
   nonneg (i_init_state a) -> nonnegf (i_k_det a) ->
   forall msg, In msg negativity_msgs ->
     fst (construct a w) <> Raise (Py.ValueError msg)).
Proof.
  split.
  - intros H. apply construct_raises.
    rewrite <- !any_neg2_spec, <- any_neg_spec, <- any_negf_spec in H.
    open_checks.
    destruct (negb _ || negb _); [raised|].
    destruct (Np.any_neg2 (i_react_stoic a)); [raised|].
    destruct (Np.any_neg2 (i_prod_stoic a)); [raised|].
    destruct (Np.any_neg (i_init_state a)); [raised|].
    destruct (Np.any_negf (i_k_det a)); [raised|].
    exfalso. intuition discriminate.
  - intros Hr Hp Hi Hk msg Hmsg.
    open_checks.
    rewrite (nonneg2_no_neg _ Hr), (nonneg2_no_neg _ Hp),
      (nonneg_no_neg _ Hi), (nonnegf_no_neg _ Hk).
    assert (Hne : msg <> Msg.shape /\ msg <> Msg.k_len /\
                  msg <> Msg.chem_flag /\ msg <> Msg.order /\
                  msg <> Np.zero_size_msg).
    { unfold negativity_msgs in Hmsg. simpl in Hmsg.
      repeat split; intros ->; intuition discriminate. }
    destruct Hne as (H1 & H2 & H3 & H4 & H5).
    decide_tests idtac; try congruence.
    all: destruct (Np.sum_axis1 (i_react_stoic a)) as [|o os]; simpl;
         [congruence|].
    all: destruct (3 <? _); congruence.
Qed.

Lemma construct_negativity_checks_witness :
  (exists msg,
     construct
       {| i_react_stoic := Fixtures.V_r; i_prod_stoic := Fixtures.V_p;
          i_init_state := [100; -1; 0]; i_k_det := Fixtures.k;
          i_chem_flag := Py.Bool false; i_volume := 1%float |} Fixtures.w0
     = (Raise (Py.ValueError msg), Fixtures.w0)) /\
  fst (construct (Fixtures.basic (Py.Bool false) 1%float) Fixtures.w0)
  <> Raise (Py.ValueError Msg.k_neg).
Proof.
  split.
  - apply (proj1 (construct_negativity_checks unit _ Fixtures.w0)).
    right. right. left. exists (-1). simpl. split; [tauto | lia].
  - apply (proj2 (construct_negativity_checks unit
                    (Fixtures.basic (Py.Bool false) 1%float) Fixtures.w0)).
    + intros row x Hrow Hx. simpl in Hrow.
      repeat (destruct Hrow as [<- | Hrow]; [simpl in Hx; intuition lia|]).
      contradiction.
    + intros row x Hrow Hx. simpl in Hrow.
      repeat (destruct Hrow as [<- | Hrow]; [simpl in Hx; intuition lia|]).
      contradiction.
    + intros x Hx. simpl in Hx. intuition lia.
    + intros x Hx. simpl in Hx.
      repeat (destruct Hx as [<- | Hx]; [reflexivity|]). contradiction.
    + unfold negativity_msgs. simpl. tauto.
Defined.




(** What passes the check of [chem_flag]: the booleans, and the numbers
    zero and one, which equal [False] and [True]. *)
Lemma contains_True_False (x : Py.value) :
  Py.contains x [Py.Bool true; Py.Bool false] = true <-> flag_passes x.
Proof.
  unfold Py.contains, flag_passes. cbn [existsb]. rewrite !orb_true_iff.
  destruct x as [b|z|f|s|];
    cbn [Py.eqv Py.int_of_bool Py.float_of_bool].
  - split; [intros _; left; now exists b|]. intros _. destruct b; auto.
  - rewrite !Z.eqb_eq. split.
    + intros [H|[H|H]]; [right; right; left; now subst
                        | right; left; now subst | discriminate].
    + intros [[b H]|[H|[H|(f & H & _)]]];
        [discriminate| | |discriminate]; injection H as ->; auto.
  - split.
    + intros [H|[H|H]]; [| |discriminate];
        right; right; right; exists f; auto.
    + intros [[b H]|[H|[H|(g & H & Hg)]]]; try discriminate.
      injection H as <-. destruct Hg; auto.
  - split; [intros [H|[H|H]]; discriminate|].
    intros [[b H]|[H|[H|(f & H & _)]]]; discriminate.
  - split; [intros [H|[H|H]]; discriminate|].
    intros [[b H]|[H|[H|(f & H & _)]]]; discriminate.
Qed.

(** The floats [1.0] and [-0.0] pass as well, a string does not. *)
Example chem_flag_floats :
  Py.contains (Py.Float 1%float) [Py.Bool true; Py.Bool false] = true /\
  Py.contains (Py.Float (-0)%float) [Py.Bool true; Py.Bool false] = true /\
  Py.contains (Py.Float 0.5%float) [Py.Bool true; Py.Bool false] = false /\
  Py.contains (Py.Str "True") [Py.Bool true; Py.Bool false] = false /\
  Py.eqv (Py.Int 3) (Py.Float 3%float) = true /\
  Py.eqv (Py.Int 1) (Py.Float 0.5%float) = false.
Proof. repeat split. Qed.

(** C10.  The check of [chem_flag] uses membership in [(True, False)],
    which compares with [==]: the integer [1] equals [True], so
    [Simulation(V_r, V_p, X0, k, chem_flag=1)] is accepted, and the
    instance keeps the integer, although [1] is not a boolean. *)
Theorem chem_flag_int_accepted :
  forall (G : Type) (w : world G),
    Py.is_bool (Py.Int 1) = false /\
    exists self,
      construct (Fixtures.basic (Py.Int 1) 1%float) w = (Ok self, w) /\
      _chem_flag self = Py.Int 1.
Proof.
  intros G w. split; [reflexivity|].
  eexists. split; reflexivity.
Qed.

(** ** The replicate loop *)

Lemma getitem_nth_error {A} (l : list A) (i : nat) (x : A) :
  nth_error l i = Some x -> getitem l (Z.of_nat i) = inr x.
Proof.
  intros H. unfold getitem.
  destruct (Z.ltb_spec (Z.of_nat i) 0); [lia|].
  destruct (Z.ltb_spec (Z.of_nat i) 0); [lia|].
  now rewrite Nat2Z.id, H.
Qed.

(** Indexing a list by the successive indices from its start reads its
    elements in order. *)
Lemma getitem_in_order (p l : list Z) :
  Forall2 (fun i s => getitem (p ++ l) i = inr s)
          (map Z.of_nat (seq (length p) (length l))) l.
Proof.
  revert p. induction l as [|s l IH]; intros p; [constructor|].
  cbn [length seq map]. constructor.
  - apply getitem_nth_error.
    rewrite nth_error_app2 by lia. now rewrite Nat.sub_diag.
  - specialize (IH (p ++ [s])).
    rewrite <- app_assoc, length_app in IH. cbn [length app] in IH.
    now rewrite Nat.add_1_r in IH.
Qed.

Lemma getitem_range (l : list Z) (n : Z) :
  length l = Z.to_nat n ->
  Forall2 (fun i s => getitem l i = inr s) (Py.range n) l.
Proof.
  intros H. unfold Py.range. rewrite <- H. exact (getitem_in_order [] l).
Qed.

Lemma world_after_nil {G} (dn : EngineArgs -> G -> EngineOut * G)
    (w : world G) :
  world_after dn w [] = w.
Proof.
  destruct w. unfold world_after. cbn. now rewrite app_nil_r.
Qed.

Lemma run_engine_length {G} (dn : EngineArgs -> G -> EngineOut * G)
    (l : list EngineArgs) (g : G) :
  length (fst (run_engine dn l g)) = length l.
Proof.
  revert g. induction l as [|a l IH]; intros g; [reflexivity|].
  cbn [run_engine]. destruct (dn a g) as [o g1].
  specialize (IH g1). destruct (run_engine dn l g1) as [os g2].
  cbn [fst length] in *. now rewrite IH.
Qed.

Section Loop.

Variable G : Type.
Variable direct_naive : EngineArgs -> G -> EngineOut * G.

(** The loop of [simulate] over indices at which [seed] holds [sds]: one
    call per index, in order, each with the instance's network and the
    index's seed; the triples are appended to the three lists in the order
    of the calls, and the instance is not touched. *)
Lemma replicate_loop (self : Simulation) (max_t : float) (max_iter : Z)
    (volume : float) (seed idx sds : list Z) :
  Forall2 (fun i s => getitem seed i = inr s) idx sds ->
  forall ts xs sts (w : world G),
    for_each idx (replicate G direct_naive max_t max_iter volume seed)
             (ts, xs, sts) (self, w)
    = (Ok (ts ++ map out_t (fst (run_engine direct_naive
                 (map (engine_args self max_t max_iter volume) sds) (rng w))),
           xs ++ map out_X (fst (run_engine direct_naive
                 (map (engine_args self max_t max_iter volume) sds) (rng w))),
           sts ++ map out_status (fst (run_engine direct_naive
                 (map (engine_args self max_t max_iter volume) sds) (rng w)))),
       (self, world_after direct_naive w
                (map (engine_args self max_t max_iter volume) sds))).
Proof.
  induction 1 as [|i s idx sds Hi _ IH]; intros ts xs sts w.
  - cbn. rewrite !app_nil_r, world_after_nil. reflexivity.
  - cbn [for_each map run_engine].
    unfold replicate at 1. unfold bind at 1. unfold bind at 1.
    unfold get_self at 1. cbn [fst snd].
    rewrite bind_lift, Hi. unfold bind at 1. unfold call_direct_naive.
    cbn [fst snd]. fold (engine_args self max_t max_iter volume s).
    destruct (direct_naive (engine_args self max_t max_iter volume s) (rng w))
      as [o g1] eqn:Ecall.
    unfold ret. rewrite IH. cbn [rng calls warnings].
    unfold world_after. cbn [run_engine rng calls warnings].
    rewrite Ecall.
    destruct (run_engine direct_naive
                (map (engine_args self max_t max_iter volume) sds) g1)
      as [os g2].
    cbn [fst snd map]. rewrite <- !app_assoc. reflexivity.
Qed.

(** [simulate] in full: a seed list of the wrong length raises before
    anything else, then an algorithm other than ["direct_naive"] raises,
    and in both cases the instance and the world are as they were;
    otherwise the engine serves one call per seed and the results are
    stored. *)
Lemma simulate_run (self : Simulation) (w : world G) (max_t : float)
    (max_iter : Z) (volume : float) (seed : option (list Z)) (n_rep : Z)
    (algorithm : string) :
  simulate G direct_naive max_t max_iter volume seed n_rep algorithm (self, w)
  = if seed_mismatch seed n_rep
    then (Raise (Py.ValueError Msg.seed_len), (self, w))
    else if String.eqb algorithm "direct_naive"
    then (Ok tt,
          (set_results self
             (Some (collect
                (fst (run_engine direct_naive
                   (map (engine_args self max_t max_iter volume)
                        (seeds_used seed n_rep)) (rng w)))
                algorithm (seeds_used seed n_rep))),
           world_after direct_naive w
             (map (engine_args self max_t max_iter volume)
                  (seeds_used seed n_rep))))
    else (Raise (Py.ValueError Msg.algorithm), (self, w)).
Proof.
  unfold simulate.
  assert (Hseed :
    forall B (k : list Z -> M (heap G) B),
      bind (match seed with
            | Some l =>
                raise_if (negb (n_rep =? Z.of_nat (length l)))
                         (Py.ValueError Msg.seed_len) ;; ret l
            | None => ret (Py.range n_rep)
            end) k (self, w)
      = if seed_mismatch seed n_rep
        then (Raise (Py.ValueError Msg.seed_len), (self, w))
        else k (seeds_used seed n_rep) (self, w)).
  { intros B k. destruct seed as [l|]; cbn [seed_mismatch seeds_used].
    - rewrite bind_assoc, bind_raise_if.
      now destruct (negb (n_rep =? Z.of_nat (length l))).
    - reflexivity. }
  rewrite Hseed. destruct (seed_mismatch seed n_rep) eqn:Emis; [reflexivity|].
  destruct (String.eqb algorithm "direct_naive"); [|reflexivity].
  assert (Hlen : length (seeds_used seed n_rep) = Z.to_nat n_rep).
  { destruct seed as [l|]; cbn [seed_mismatch seeds_used] in *.
    - apply negb_false_iff, Z.eqb_eq in Emis. lia.
    - apply range_length. }
  unfold bind at 1.
  rewrite (replicate_loop self max_t max_iter volume _ _ _
             (getitem_range _ _ Hlen)).
  reflexivity.
Qed.

End Loop.

(** ** The replicate runner *)

(** C6.  With no seed list, or one of length [n_rep], [simulate] makes
    one call to the engine per replicate index and no other, [n_rep] calls
    in all; the call of
    index [i] carries the instance's reactant and product matrices,
    initial state, rate constants and flag together with the seed of index
    [i]; and entry [i] of the stored times, states, statuses and seeds is
    what that call returned and the seed it was given. *)
Theorem simulate_replicates_in_order
    (G : Type) (direct_naive : EngineArgs -> G -> EngineOut * G)
    (self : Simulation) (w : world G) (max_t : float) (max_iter : Z)
    (volume : float) (seed : option (list Z)) (n_rep : Z) :
  (forall l, seed = Some l -> Z.of_nat (length l) = n_rep) ->
  let sds := seeds_used seed n_rep in
  let args := map (engine_args self max_t max_iter volume) sds in
  let outs := fst (run_engine direct_naive args (rng w)) in
  let R := collect outs "direct_naive" sds in
  (exists w',
     simulate G direct_naive max_t max_iter volume seed n_rep "direct_naive"
              (self, w)
     = (Ok tt, (set_results self (Some R), w')) /\
     calls w' = calls w ++ args) /\
  length args = Z.to_nat n_rep /\
  (0 <= n_rep -> Z.of_nat (length args) = n_rep) /\
  (forall i, (i < Z.to_nat n_rep)%nat ->
     exists s o,
       nth_error sds i = Some s /\
       nth_error args i = Some (engine_args self max_t max_iter volume s) /\
       nth_error outs i = Some o /\
       nth_error (t_list R) i = Some (out_t o) /\
       nth_error (x_list R) i = Some (out_X o) /\
       nth_error (status_list R) i = Some (out_status o) /\
       nth_error (r_seed R) i = Some s).
Proof.
  intros Hseed sds args outs R.
  assert (Hmis : seed_mismatch seed n_rep = false).
  { destruct seed as [l|]; [|reflexivity]. cbn.
    rewrite (Hseed l eq_refl). now rewrite Z.eqb_refl. }
  assert (Hlen : length sds = Z.to_nat n_rep).
  { subst sds. destruct seed as [l|]; cbn.
    - rewrite <- (Hseed l eq_refl). lia.
    - apply range_length. }
  split; [|split; [|split]].
  - eexists. rewrite simulate_run, Hmis. cbn [String.eqb Ascii.eqb Bool.eqb].
    split; reflexivity.
  - subst args. now rewrite length_map.
  - intros Hn. subst args. rewrite length_map. lia.
  - intros i Hi.
    destruct (nth_error sds i) as [s|] eqn:Es;
      [|apply nth_error_None in Es; lia].
    assert (Ea : nth_error args i
                 = Some (engine_args self max_t max_iter volume s)).
    { subst args. now rewrite nth_error_map, Es. }
    destruct (nth_error outs i) as [o|] eqn:Eo.
    + exists s, o. subst R. cbn [collect t_list x_list status_list r_seed].
      rewrite !nth_error_map, Eo. repeat split; assumption.
    + apply nth_error_None in Eo. subst outs.
      rewrite run_engine_length in Eo. subst args.
      rewrite length_map in Eo. lia.
Qed.

Lemma simulate_replicates_in_order_witness :
  length (map (engine_args Fixtures.sim0 10%float 1000 1%float)
              (seeds_used (Some [5; 5; 5]) 3)) = 3%nat.
Proof.
  apply (simulate_replicates_in_order unit Fixtures.engine0
           Fixtures.sim0 Fixtures.w0
           10%float 1000 1%float (Some [5; 5; 5]) 3).
  intros l [= <-]. reflexivity.
Defined.

(** C1.  The volume given to the constructor is stored in [_volume] and
    read by nothing: [simulate] passes its own [volume] argument.  After
    [Simulation(V_r, V_p, X0, k, volume=7.0)], a [simulate()] with the
    defaults calls the engine once, with the volume 1.0. *)
Theorem simulate_ignores_constructor_volume :
  forall (G : Type) (direct_naive : EngineArgs -> G -> EngineOut * G)
         (w : world G),
    exists self,
      construct (Fixtures.basic (Py.Bool false) Fixtures.volume) w
      = (Ok self, w) /\
      _volume self = 7%float /\
      exists R w',
        simulate G direct_naive 10%float 1000 1%float None 1 "direct_naive"
                 (self, w)
        = (Ok tt, (set_results self (Some R), w')) /\
        map a_volume (calls w') = map a_volume (calls w) ++ [1%float] /\
        PrimFloat.eqb 1%float (_volume self) = false.
Proof.
  intros G direct_naive w. eexists. split; [reflexivity|].
  split; [reflexivity|].
  rewrite simulate_run. cbn [seed_mismatch String.eqb Ascii.eqb Bool.eqb].
  do 2 eexists. split; [reflexivity|].
  split; [|reflexivity].
  cbn [world_after calls]. rewrite map_app. reflexivity.
Qed.

(** Whatever the instance, every call [simulate] makes carries the
    [volume] argument of [simulate]. *)
Lemma simulate_passes_its_volume
    (G : Type) (direct_naive : EngineArgs -> G -> EngineOut * G)
    (self : Simulation) (w : world G) (max_t : float) (max_iter : Z)
    (volume : float) (seed : option (list Z)) (n_rep : Z) (algorithm : string) :
  exists l,
    calls (snd (snd (simulate G direct_naive max_t max_iter volume seed n_rep
                              algorithm (self, w))))
    = calls w ++ l /\
    Forall (fun a => a_volume a = volume) l.
Proof.
  rewrite simulate_run.
  destruct (seed_mismatch seed n_rep);
    [exists []; now rewrite app_nil_r|].
  destruct (String.eqb algorithm "direct_naive");
    [|exists []; now rewrite app_nil_r].
  eexists. split; [reflexivity|].
  apply Forall_forall. intros a Ha. apply in_map_iff in Ha.
  now destruct Ha as (s & <- & _).
Qed.

(** C5.  Without a seed list the calls of [simulate] carry the seeds
    [range(n_rep)], which are also the seeds stored, and [range(n_rep)]
    holds [i] at index [i] for [0 <= i < n_rep]; with a seed list whose
    length is not [n_rep], [simulate] raises a [ValueError] whatever the
    algorithm, and the instance, its results included, and the world, its
    call log included, are as they were. *)
Theorem simulate_seeds
    (G : Type) (direct_naive : EngineArgs -> G -> EngineOut * G)
    (self : Simulation) (w : world G) (max_t : float) (max_iter : Z)
    (volume : float) (n_rep : Z) :
  (exists R w',
     simulate G direct_naive max_t max_iter volume None n_rep "direct_naive"
              (self, w)
     = (Ok tt, (set_results self (Some R), w')) /\
     r_seed R = Py.range n_rep /\
     exists l, calls w' = calls w ++ l /\ map a_seed l = Py.range n_rep) /\
  (length (Py.range n_rep) = Z.to_nat n_rep /\
   forall i, 0 <= i < n_rep ->
     nth_error (Py.range n_rep) (Z.to_nat i) = Some i) /\
  (forall (l : list Z) (algorithm : string),
     Z.of_nat (length l) <> n_rep ->
     simulate G direct_naive max_t max_iter volume (Some l) n_rep algorithm
              (self, w)
     = (Raise (Py.ValueError Msg.seed_len), (self, w))).
Proof.
  split; [|split].
  - rewrite simulate_run. cbn [seed_mismatch String.eqb Ascii.eqb Bool.eqb].
    do 2 eexists. split; [reflexivity|]. split; [reflexivity|].
    eexists. split; [reflexivity|].
    cbn [seeds_used]. rewrite map_map. cbn [engine_args a_seed].
    apply map_id.
  - split; [apply range_length | apply range_nth].
  - intros l algorithm Hlen. rewrite simulate_run. cbn [seed_mismatch].
    destruct (Z.eqb_spec n_rep (Z.of_nat (length l))); [congruence|].
    reflexivity.
Qed.

Lemma simulate_seeds_witness :
  simulate unit Fixtures.engine0 10%float 1000 1%float (Some [4; 2]) 3
           "direct_naive" (Fixtures.sim0, Fixtures.w0)
  = (Raise (Py.ValueError Msg.seed_len), (Fixtures.sim0, Fixtures.w0)).
Proof.
  apply (proj2 (proj2 (simulate_seeds unit Fixtures.engine0 Fixtures.sim0
                         Fixtures.w0 10%float 1000 1%float 3))).
  simpl. lia.
Defined.

(** C9.  With an algorithm other than ["direct_naive"], [simulate] raises
    a [ValueError], and the instance, its results included, and the world,
    its call log included, are as they were: no replicate has run. *)
Theorem simulate_rejects_other_algorithms
    (G : Type) (direct_naive : EngineArgs -> G -> EngineOut * G)
    (self : Simulation) (w : world G) (max_t : float) (max_iter : Z)
    (volume : float) (seed : option (list Z)) (n_rep : Z) (algorithm : string) :
  algorithm <> "direct_naive" ->
  exists msg,
    simulate G direct_naive max_t max_iter volume seed n_rep algorithm (self, w)
    = (Raise (Py.ValueError msg), (self, w)).
Proof.
  intros Halg. rewrite simulate_run.
  destruct (seed_mismatch seed n_rep); [raised|].
  destruct (String.eqb_spec algorithm "direct_naive"); [contradiction|].
  eexists; reflexivity.
Qed.

Lemma simulate_rejects_other_algorithms_witness :
  exists msg,
    simulate unit Fixtures.engine0 10%float 1000 1%float None 1 "tau_leaping"
             (Fixtures.sim0, Fixtures.w0)
    = (Raise (Py.ValueError msg), (Fixtures.sim0, Fixtures.w0)).
Proof.
  apply (simulate_rejects_other_algorithms unit Fixtures.engine0 Fixtures.sim0
           Fixtures.w0 10%float 1000 1%float None 1 "tau_leaping").
  discriminate.
Defined.

(** ** The results accessor *)

(** C7.  On an instance without results, as a construction leaves it,
    [results] issues one warning and returns [None], raising nothing; on
    an instance with results it returns them and the world is as it was:
    no warning is issued. *)
Theorem results_warns_before_run
    (G : Type) (self : Simulation) (w : world G) :
  (forall a (w0 w1 : world G),
     construct a w0 = (Ok self, w1) -> _results self = None) /\
  (_results self = None ->
   results G (self, w)
   = (Ok None,
      (self, {| rng := rng w; calls := calls w;
                warnings := warnings w ++ [Msg.no_results] |}))) /\
  (forall R, _results self = Some R ->
   results G (self, w) = (Ok (Some R), (self, w))).
Proof.
  split; [|split].
  - intros a w0 w1 H. apply construct_Ok in H. now destruct H as [-> _].
  - intros H. unfold results, bind, get_self. cbn [fst snd]. now rewrite H.
  - intros R H. unfold results, bind, get_self. cbn [fst snd]. now rewrite H.
Qed.

Lemma results_warns_before_run_witness :
  results unit (Fixtures.sim0, Fixtures.w0)
  = (Ok None, (Fixtures.sim0, mk_world tt [] [Msg.no_results])).
Proof.
  apply (proj1 (proj2 (results_warns_before_run unit Fixtures.sim0 Fixtures.w0))).
  reflexivity.
Defined.

(** * Further properties *)

(** ** What the constructor accepts *)

Lemma shape_test_false (x y : Np.ndarray2) :
  negb (Np.shape0 x =? Np.shape0 y)%nat
  || negb (Np.shape1 x =? Np.shape1 y)%nat = false
  <-> Np.shape x = Np.shape y.
Proof.
  unfold Np.shape. rewrite orb_false_iff, !negb_false_iff, !Nat.eqb_eq.
  split; [intros [-> ->]; reflexivity | intros [= -> ->]; auto].
Qed.

Lemma any_neg_false (v : list Z) : Np.any_neg v = false <-> nonneg v.
Proof.
  split; [|apply nonneg_no_neg].
  intros H x Hx. destruct (Z.ltb_spec x 0); [|assumption].
  assert (Np.any_neg v = true) by (apply any_neg_spec; now exists x).
  congruence.
Qed.

Lemma any_neg2_false (a : Np.ndarray2) : Np.any_neg2 a = false <-> nonneg2 a.
Proof.
  split; [|apply nonneg2_no_neg].
  intros H row x Hrow Hx. destruct (Z.ltb_spec x 0); [|assumption].
  assert (Np.any_neg2 a = true) by (apply any_neg2_spec; now exists row, x).
  congruence.
Qed.

Lemma any_negf_false (v : list float) :
  Np.any_negf v = false <-> ~ has_negf v.
Proof.
  rewrite <- any_negf_spec. now destruct (Np.any_negf v).
Qed.

Lemma k_len_test_false (k : list float) (n : nat) :
  negb (length k =? n)%nat = false <-> length k = n.
Proof. now rewrite negb_false_iff, Nat.eqb_eq. Qed.

Lemma flag_test_false (x : Py.value) :
  negb (Py.contains x [Py.Bool true; Py.Bool false]) = false
  <-> flag_passes x.
Proof. rewrite negb_false_iff. apply contains_True_False. Qed.

Lemma np_max_orders_inl (r : Np.ndarray2) (e : Py.exn) :
  Np.max (Np.sum_axis1 r) = inl e ->
  Np.rows r = [] /\ e = Py.ValueError Np.zero_size_msg.
Proof.
  unfold Np.sum_axis1. destruct (Np.rows r); cbn; [|discriminate].
  intros [= <-]. now split.
Qed.

Lemma np_max_orders_inr (r : Np.ndarray2) (m : Z) :
  Np.max (Np.sum_axis1 r) = inr m ->
  Np.rows r <> [] /\
  ((3 <? m) = false <-> Forall (fun o => o <= 3) (orders_int64 r)).
Proof.
  intros H. split.
  - unfold Np.sum_axis1 in H. destruct (Np.rows r); [discriminate|congruence].
  - rewrite sum_axis1_orders_int64 in H. apply np_max_spec in H.
    destruct H as [Hub Hleast]. rewrite Z.ltb_ge. split.
    + intros Hm. eapply Forall_impl; [|exact Hub]. cbv beta. intros; lia.
    + apply Hleast.
Qed.

Lemma np_max_orders_some (r : Np.ndarray2) :
  Np.rows r <> [] -> exists m, Np.max (Np.sum_axis1 r) = inr m.
Proof.
  intros H. apply np_max_nonempty. unfold Np.sum_axis1.
  destruct (Np.rows r); [congruence | discriminate].
Qed.

Lemma accepted_iff_requirements (G : Type) (a : InitArgs) (w : world G) :
  accepted a w <-> Forall (fun r => fst r) (requirements a).
Proof.
  unfold accepted, requirements. split.
  - open_checks. intros H.
    destruct (negb (Np.shape0 _ =? _)%nat || _) eqn:E1; [discriminate|].
    destruct (Np.any_neg2 (i_react_stoic a)) eqn:E2; [discriminate|].
    destruct (Np.any_neg2 (i_prod_stoic a)) eqn:E3; [discriminate|].
    destruct (Np.any_neg (i_init_state a)) eqn:E4; [discriminate|].
    destruct (Np.any_negf (i_k_det a)) eqn:E5; [discriminate|].
    destruct (negb (length _ =? _)%nat) eqn:E6; [discriminate|].
    destruct (negb (Py.contains _ _)) eqn:E7; [discriminate|].
    destruct (Np.max _) as [e|m] eqn:E8; [discriminate|].
    destruct (3 <? m) eqn:E9; [discriminate|].
    apply np_max_orders_inr in E8. destruct E8 as [Hne Hord].
    repeat apply Forall_cons; try apply Forall_nil; cbn [fst].
    + now apply shape_test_false.
    + now apply any_neg2_false.
    + now apply any_neg2_false.
    + now apply any_neg_false.
    + now apply any_negf_false.
    + now apply k_len_test_false.
    + now apply flag_test_false.
    + exact Hne.
    + now apply Hord.
  - intros H.
    repeat match goal with
           | H : Forall _ (_ :: _) |- _ =>
               apply Forall_cons_iff in H;
               let R := fresh "R" in destruct H as [R H]
           end.
    cbn [fst] in *. open_checks.
    rewrite (proj2 (shape_test_false _ _) R).
    rewrite (proj2 (any_neg2_false _) R0), (proj2 (any_neg2_false _) R1).
    rewrite (proj2 (any_neg_false _) R2), (proj2 (any_negf_false _) R3).
    rewrite (proj2 (k_len_test_false _ _) R4).
    rewrite (proj2 (flag_test_false _) R5).
    destruct (np_max_orders_some _ R6) as [m Hm]. rewrite Hm.
    apply np_max_orders_inr in Hm. destruct Hm as [_ Hm].
    now rewrite (proj2 Hm R7).
Qed.

(** X1.  The constructor accepts its arguments exactly when they meet all its
    requirements. *)
Theorem construct_accepts_iff (G : Type) (a : InitArgs) (w : world G) :
  accepted a w <-> Forall (fun r => fst r) (requirements a).
Proof.
  split; intros H.
  - now apply (accepted_iff_requirements G a w).
  - now apply (accepted_iff_requirements G a w).
Qed.

(** Rewrites the tests of the checks whose requirements are among the
    hypotheses. *)
Ltac pass_tests :=
  repeat match goal with
         | R : Np.shape _ = Np.shape _ |- _ =>
             rewrite (proj2 (shape_test_false _ _) R); clear R
         | R : nonneg2 _ |- _ =>
             rewrite (proj2 (any_neg2_false _) R); clear R
         | R : nonneg _ |- _ =>
             rewrite (proj2 (any_neg_false _) R); clear R
         | R : ~ has_negf _ |- _ =>
             rewrite (proj2 (any_negf_false _) R); clear R
         | R : length _ = Np.shape0 _ |- _ =>
             rewrite (proj2 (k_len_test_false _ _) R); clear R
         | R : flag_passes _ |- _ =>
             rewrite (proj2 (flag_test_false _) R); clear R
         end.

(** The test at the head of the checks fires: were it not to, the
    requirement it reflects would hold, which [H] refutes. *)
Ltac fail_test H :=
  match goal with
  | |- (match (if ?c then _ else _) with _ => _ end, _) = _ =>
      let E := fresh "E" in
      destruct c eqn:E;
      [reflexivity
      |exfalso; apply H;
       first [ now apply shape_test_false | now apply any_neg2_false
             | now apply any_neg_false | now apply any_negf_false
             | now apply k_len_test_false | now apply flag_test_false ]]
  end.

(** X2.  The constructor raises for the first requirement, in the order of its
    checks, that its arguments do not meet, with the message of that
    requirement, and leaves the world. *)
Theorem construct_first_failure
    (G : Type) (a : InitArgs) (w : world G)
    (pre post : list (Prop * string)) (P : Prop) (msg : string) :
  requirements a = pre ++ (P, msg) :: post ->
  Forall (fun r => fst r) pre ->
  ~ P ->
  construct a w = (Raise (Py.ValueError msg), w).
Proof.
  unfold requirements. intros Heq Hpre HnP.
  do 9 (try (destruct pre as [|? pre];
             [injection Heq as <- <- <-
             |injection Heq as <- Heq;
              apply Forall_cons_iff in Hpre;
              let R := fresh "R" in
              destruct Hpre as [R Hpre]; cbn [fst] in R])).
  10: { destruct pre; discriminate. }
  all: clear Hpre; open_checks; pass_tests.
  1-7: fail_test HnP.
  - destruct (Np.max _) as [e|m] eqn:Emax.
    + apply np_max_orders_inl in Emax. now destruct Emax as [_ ->].
    + apply np_max_orders_inr in Emax. now destruct Emax as [Hne _].
  - destruct (np_max_orders_some _ R6) as [m Hm]. rewrite Hm.
    apply np_max_orders_inr in Hm. destruct Hm as [_ Hm].
    destruct (3 <? m); [reflexivity|].
    exfalso. apply HnP. now apply Hm.
Qed.

Lemma construct_first_failure_witness :
  construct Fixtures.mismatched Fixtures.w0
  = (Raise (Py.ValueError Msg.shape), Fixtures.w0) /\
  construct (with_k_det (Fixtures.basic (Py.Str "yes") 1%float)
                        [1%float; neg_infinity]) Fixtures.w0
  = (Raise (Py.ValueError Msg.k_neg), Fixtures.w0).
Proof.
  split.
  - apply (construct_first_failure unit Fixtures.mismatched Fixtures.w0
             [] (tl (requirements Fixtures.mismatched))
             (Np.shape (i_react_stoic Fixtures.mismatched)
              = Np.shape (i_prod_stoic Fixtures.mismatched))
             Msg.shape).
    + reflexivity.
    + constructor.
    + vm_compute. discriminate.
  - apply (construct_first_failure unit
             (with_k_det (Fixtures.basic (Py.Str "yes") 1%float)
                         [1%float; neg_infinity]) Fixtures.w0
             (firstn 4 (requirements
                (with_k_det (Fixtures.basic (Py.Str "yes") 1%float)
                            [1%float; neg_infinity])))
             (skipn 5 (requirements
                (with_k_det (Fixtures.basic (Py.Str "yes") 1%float)
                            [1%float; neg_infinity])))
             (~ has_negf [1%float; neg_infinity]) Msg.k_neg).
    + reflexivity.
    + cbn [firstn requirements].
      repeat apply Forall_cons; try apply Forall_nil; cbn [fst].
      * reflexivity.
      * apply any_neg2_false. reflexivity.
      * apply any_neg2_false. reflexivity.
      * apply any_neg_false. reflexivity.
    + intros H. apply H. exists neg_infinity. split; [|reflexivity].
      cbn. tauto.
Defined.

Lemma requirements_intro (a : InitArgs) :
  Np.shape (i_react_stoic a) = Np.shape (i_prod_stoic a) ->
  nonneg2 (i_react_stoic a) ->
  nonneg2 (i_prod_stoic a) ->
  nonneg (i_init_state a) ->
  ~ has_negf (i_k_det a) ->
  length (i_k_det a) = Np.shape0 (i_react_stoic a) ->
  flag_passes (i_chem_flag a) ->
  Np.rows (i_react_stoic a) <> [] ->
  Forall (fun o => o <= 3) (orders_int64 (i_react_stoic a)) ->
  Forall (fun r => fst r) (requirements a).
Proof.
  intros. unfold requirements.
  repeat (apply Forall_cons; [assumption|]). apply Forall_nil.
Qed.

Lemma construct_accepts_iff_witness :
  accepted (Fixtures.basic (Py.Bool false) 1%float) Fixtures.w0.
Proof.
  apply (proj2 (construct_accepts_iff unit
                  (Fixtures.basic (Py.Bool false) 1%float) Fixtures.w0)).
  apply requirements_intro.
  - reflexivity.
  - apply any_neg2_false. reflexivity.
  - apply any_neg2_false. reflexivity.
  - apply any_neg_false. reflexivity.
  - apply any_negf_false. reflexivity.
  - reflexivity.
  - left. now exists false.
  - discriminate.
  - repeat constructor; cbn; lia.
Defined.

(** X3.  What an accepted construction guarantees of the instance: the
    world is untouched and there are no results yet; the instance has at
    least one reaction and every order stored is at most three, and lies
    between zero and three and is the row sum when an int64 can hold the
    row sums; no count, coefficient or rate constant is below zero; both
    matrices have the shape [(_nr, _ns)] and there are [_nr] rate constants;
    and when the reactant matrix has the rows its shape announces, there
    are [_nr] orders. *)
Theorem accepted_instance_invariants
    (G : Type) (a : InitArgs) (w w' : world G) (self : Simulation) :
  construct a w = (Ok self, w') ->
  w' = w /\ _results self = None /\
  _orders self <> [] /\ Forall (fun o => o <= 3) (_orders self) /\
  (Forall in_int64 (orders_spec (_react_stoic self)) ->
   _orders self = orders_spec (_react_stoic self) /\
   Forall (fun o => 0 <= o <= 3) (_orders self)) /\
  nonneg2 (_react_stoic self) /\ nonneg2 (_prod_stoic self) /\
  nonneg (_init_state self) /\ ~ has_negf (_k_det self) /\
  Np.shape (_react_stoic self) = (_nr self, _ns self) /\
  Np.shape (_prod_stoic self) = (_nr self, _ns self) /\
  length (_k_det self) = _nr self /\
  (Np.wf (_react_stoic self) = true -> length (_orders self) = _nr self).
Proof.
  intros H. destruct (construct_Ok a w w' self H) as [-> ->].
  apply (accepted_iff_requirements G a w) in H. unfold requirements in H.
  repeat match goal with
         | H : Forall _ (_ :: _) |- _ =>
             apply Forall_cons_iff in H;
             let R := fresh "R" in destruct H as [R H]
         end.
  cbn [fst] in *.
  cbn [instance _results _orders _react_stoic _prod_stoic _init_state _k_det
       _nr _ns].
  rewrite sum_axis1_orders_int64.
  split; [reflexivity|]. split; [reflexivity|]. split.
  { unfold orders_int64, orders_spec.
    destruct (Np.rows (i_react_stoic a)); [congruence | discriminate]. }
  split; [exact R7|]. split.
  { intros Hfit. rewrite (orders_int64_fit _ Hfit) in *.
    split; [reflexivity|].
    unfold orders_spec in *. apply Forall_forall. intros o Ho.
    rewrite Forall_forall in R7. split; [|now apply R7].
    apply in_map_iff in Ho. destruct Ho as (row & <- & Hrow).
    apply order_of_row_nonneg. intros x Hx. exact (R0 row x Hrow Hx). }
  repeat split; try assumption.
  - now rewrite <- R.
  - intros Hwf. unfold Np.wf in Hwf. apply andb_true_iff in Hwf.
    destruct Hwf as [Hlen _]. apply Nat.eqb_eq in Hlen.
    unfold orders_int64, orders_spec. now rewrite !length_map.
Qed.

Lemma accepted_instance_invariants_witness :
  Forall (fun o => o <= 3) (_orders Fixtures.sim0).
Proof.
  exact (proj1 (proj2 (proj2 (proj2
           (accepted_instance_invariants unit
              (Fixtures.basic (Py.Bool false) 1%float) Fixtures.w0
              Fixtures.w0 Fixtures.sim0 eq_refl))))).
Defined.

(** X4.  A rate constant that is not a number passes the constructor: the test
    is [k_det < 0], which a NaN does not satisfy, although a NaN is not at
    least zero either.  Arguments that are accepted stay accepted when
    every rate constant is replaced by a NaN. *)
Theorem nan_rate_constants_accepted
    (G : Type) (a : InitArgs) (w : world G) :
  accepted a w ->
  accepted (with_k_det a (map (fun _ => nan) (i_k_det a))) w /\
  PrimFloat.leb 0%float nan = false.
Proof.
  intros H. split; [|reflexivity].
  apply accepted_iff_requirements in H. apply accepted_iff_requirements.
  unfold requirements in *.
  repeat match goal with
         | H : Forall _ (_ :: _) |- _ =>
             apply Forall_cons_iff in H;
             let R := fresh "R" in destruct H as [R H]
         end.
  cbn [fst with_k_det i_react_stoic i_prod_stoic i_init_state i_k_det
       i_chem_flag] in *.
  apply (requirements_intro (with_k_det a (map (fun _ => nan) (i_k_det a))));
    cbn [with_k_det i_react_stoic i_prod_stoic i_init_state i_k_det
         i_chem_flag]; try assumption.
  - intros (x & Hx & Hlt). apply in_map_iff in Hx.
    destruct Hx as (y & <- & _). discriminate.
  - now rewrite length_map.
Qed.

Lemma nan_rate_constants_accepted_witness :
  accepted (with_k_det (Fixtures.basic (Py.Bool false) 1%float) [nan; nan])
           Fixtures.w0.
Proof.
  apply (nan_rate_constants_accepted unit
           (Fixtures.basic (Py.Bool false) 1%float) Fixtures.w0).
  reflexivity.
Defined.

(** ** What [simulate] keeps and leaves *)

Lemma set_results_same (self : Simulation) :
  set_results self (_results self) = self.
Proof. now destruct self. Qed.

Section SimulateFurther.

Variable G : Type.
Variable direct_naive : EngineArgs -> G -> EngineOut * G.

(** X5.  Whatever its arguments and its outcome, [simulate] leaves the network
    of the instance as it is: the instance afterwards differs from the one
    before in its results at most, and it passes the constructor's checks
    exactly as before. *)
Theorem simulate_preserves_network
    (self : Simulation) (w : world G) (max_t : float) (max_iter : Z)
    (volume : float) (seed : option (list Z)) (n_rep : Z) (algorithm : string) :
  let self' :=
    fst (snd (simulate G direct_naive max_t max_iter volume seed n_rep
                       algorithm (self, w))) in
  self' = set_results self (_results self') /\
  forall (S : Type) (s : S),
    _check_consistency self' s = _check_consistency self s.
Proof.
  cbv zeta. rewrite simulate_run.
  destruct (seed_mismatch seed n_rep);
    [cbn [fst snd]; split; [now rewrite set_results_same | reflexivity]|].
  destruct (String.eqb algorithm "direct_naive"); cbn [fst snd].
  - split; reflexivity.
  - split; [now rewrite set_results_same | reflexivity].
Qed.

(** X6.  [simulate] ends in one of three ways: it returns, or it raises the
    [ValueError] of the seeds, or that of the algorithm; it raises no
    [IndexError].  It issues no warning; it only appends to the call log;
    and when it raises, the instance and the world are as they were. *)
Theorem simulate_outcomes
    (self : Simulation) (w : world G) (max_t : float) (max_iter : Z)
    (volume : float) (seed : option (list Z)) (n_rep : Z) (algorithm : string) :
  let r := simulate G direct_naive max_t max_iter volume seed n_rep
                    algorithm (self, w) in
  (fst r = Ok tt \/
   r = (Raise (Py.ValueError Msg.seed_len), (self, w)) \/
   r = (Raise (Py.ValueError Msg.algorithm), (self, w))) /\
  warnings (snd (snd r)) = warnings w /\
  exists l, calls (snd (snd r)) = calls w ++ l.
Proof.
  cbv zeta. rewrite simulate_run.
  destruct (seed_mismatch seed n_rep).
  { split; [auto|]. split; [reflexivity|]. exists []. now rewrite app_nil_r. }
  destruct (String.eqb algorithm "direct_naive").
  - split; [auto|]. split; [reflexivity|]. eexists. reflexivity.
  - split; [auto|]. split; [reflexivity|]. exists []. now rewrite app_nil_r.
Qed.

(** X7.  After a [simulate] that returned, the instance holds results whose
    four lists have one entry per replicate, [n_rep] when that is not
    negative, under the algorithm ["direct_naive"]; and [results] returns
    them without a warning. *)
Theorem simulate_then_results
    (self : Simulation) (w : world G) (max_t : float) (max_iter : Z)
    (volume : float) (seed : option (list Z)) (n_rep : Z) (algorithm : string) :
  let r := simulate G direct_naive max_t max_iter volume seed n_rep
                    algorithm (self, w) in
  fst r = Ok tt ->
  exists R,
    _results (fst (snd r)) = Some R /\
    length (t_list R) = Z.to_nat n_rep /\
    length (x_list R) = Z.to_nat n_rep /\
    length (status_list R) = Z.to_nat n_rep /\
    length (r_seed R) = Z.to_nat n_rep /\
    r_algorithm R = "direct_naive" /\
    results G (snd r) = (Ok (Some R), snd r).
Proof.
  cbv zeta. rewrite simulate_run.
  destruct (seed_mismatch seed n_rep) eqn:Emis; [discriminate|].
  destruct (String.eqb_spec algorithm "direct_naive") as [->|];
    [|discriminate].
  intros _. cbn [fst snd]. eexists. split; [reflexivity|].
  assert (Hlen : length (seeds_used seed n_rep) = Z.to_nat n_rep).
  { destruct seed as [l|]; cbn [seed_mismatch seeds_used] in *.
    - apply negb_false_iff, Z.eqb_eq in Emis. lia.
    - apply range_length. }
  cbn [collect t_list x_list status_list r_seed r_algorithm].
  rewrite !length_map, run_engine_length, length_map.
  repeat split; try assumption.
Qed.

(** X8.  A [simulate] that returns replaces the results the instance held, and
    one that raises keeps them: started on an instance holding any results
    [r], it ends as it does on the instance itself, but that the instance
    still holds [r] when it raises. *)
Theorem simulate_replaces_results
    (self : Simulation) (r : option Results) (w : world G) (max_t : float)
    (max_iter : Z) (volume : float) (seed : option (list Z)) (n_rep : Z)
    (algorithm : string) :
  simulate G direct_naive max_t max_iter volume seed n_rep algorithm
           (set_results self r, w)
  = match fst (simulate G direct_naive max_t max_iter volume seed n_rep
                        algorithm (self, w)) with
    | Ok _ => simulate G direct_naive max_t max_iter volume seed n_rep
                       algorithm (self, w)
    | Raise e => (Raise e, (set_results self r, w))
    end.
Proof.
  rewrite !simulate_run.
  destruct (seed_mismatch seed n_rep); [reflexivity|].
  destruct (String.eqb algorithm "direct_naive"); reflexivity.
Qed.

(** X9.  With no seed list and an [n_rep] of zero or less, [simulate] returns
    without a call to the engine and stores results without entries, which
    [results] then returns without a warning; with a seed list and a
    negative [n_rep] it raises the [ValueError] of the seeds. *)
Theorem simulate_without_replicates
    (self : Simulation) (w : world G) (max_t : float) (max_iter : Z)
    (volume : float) (n_rep : Z) :
  n_rep <= 0 ->
  let empty := mk_Results [] [] [] "direct_naive" [] in
  simulate G direct_naive max_t max_iter volume None n_rep "direct_naive"
           (self, w)
  = (Ok tt, (set_results self (Some empty), w)) /\
  results G (set_results self (Some empty), w)
  = (Ok (Some empty), (set_results self (Some empty), w)) /\
  forall l algorithm,
    n_rep < 0 ->
    simulate G direct_naive max_t max_iter volume (Some l) n_rep algorithm
             (self, w)
    = (Raise (Py.ValueError Msg.seed_len), (self, w)).
Proof.
  intros Hn. cbv zeta. split; [|split].
  - rewrite simulate_run. cbn [seed_mismatch seeds_used String.eqb Ascii.eqb
                               Bool.eqb].
    unfold Py.range. replace (Z.to_nat n_rep) with 0%nat by lia.
    cbn [seq map run_engine fst]. now rewrite world_after_nil.
  - reflexivity.
  - intros l algorithm Hneg. rewrite simulate_run. cbn [seed_mismatch].
    destruct (Z.eqb_spec n_rep (Z.of_nat (length l))); [lia | reflexivity].
Qed.

End SimulateFurther.

Lemma simulate_then_results_witness :
  exists R,
    _results (fst (snd (simulate unit Fixtures.engine0 10%float 1000 1%float
                          (Some [5; 7]) 2 "direct_naive"
                          (Fixtures.sim0, Fixtures.w0)))) = Some R /\
    length (t_list R) = 2%nat.
Proof.
  destruct (simulate_then_results unit Fixtures.engine0 Fixtures.sim0
              Fixtures.w0 10%float 1000 1%float (Some [5; 7]) 2
              "direct_naive" eq_refl) as (R & H1 & H2 & _).
  exists R. split; assumption.
Defined.

Lemma simulate_without_replicates_witness :
  simulate unit Fixtures.engine0 10%float 1000 1%float None 0 "direct_naive"
           (Fixtures.sim0, Fixtures.w0)
  = (Ok tt,
     (set_results Fixtures.sim0
        (Some (mk_Results [] [] [] "direct_naive" [])), Fixtures.w0)).
Proof.
  apply (simulate_without_replicates unit Fixtures.engine0 Fixtures.sim0
           Fixtures.w0 10%float 1000 1%float 0).
  lia.
Defined.

(** ** Seeds and results *)

Lemma seed_mismatch_false (seed : option (list Z)) (n_rep : Z) :
  (forall l, seed = Some l -> Z.of_nat (length l) = n_rep) ->
  seed_mismatch seed n_rep = false.
Proof.
  intros H. destruct seed as [l|]; [|reflexivity]. cbn.
  rewrite (H l eq_refl). now rewrite Z.eqb_refl.
Qed.

Lemma run_engine_seed_determined {G}
    (direct_naive : EngineArgs -> G -> EngineOut * G) :
  seed_determined direct_naive ->
  forall (l : list EngineArgs) (g : G),
    fst (run_engine direct_naive l g)
    = map (fun a => fst (direct_naive a g)) l.
Proof.
  intros Hdet l. induction l as [|a l IH]; intros g; [reflexivity|].
  cbn [run_engine map]. destruct (direct_naive a g) as [o g1] eqn:Ea.
  specialize (IH g1).
  destruct (run_engine direct_naive l g1) as [os g2].
  cbn [fst] in *. rewrite IH. f_equal.
  apply map_ext. intros b. apply Hdet.
Qed.

(** X10.  With an engine whose triple is a function of the arguments of the
    call, what [simulate] stores for a replicate is a function of the
    replicate's seed: it is what the engine returns for that seed, whatever
    the replicate's index and the other seeds; so two replicates of equal
    seeds have equal times, states and statuses. *)
Theorem equal_seeds_equal_results
    (G : Type) (direct_naive : EngineArgs -> G -> EngineOut * G)
    (self : Simulation) (w : world G) (max_t : float) (max_iter : Z)
    (volume : float) (seed : option (list Z)) (n_rep : Z) :
  seed_determined direct_naive ->
  (forall l, seed = Some l -> Z.of_nat (length l) = n_rep) ->
  exists R w',
    simulate G direct_naive max_t max_iter volume seed n_rep "direct_naive"
             (self, w)
    = (Ok tt, (set_results self (Some R), w')) /\
    (forall i s,
       nth_error (seeds_used seed n_rep) i = Some s ->
       let o := fst (direct_naive (engine_args self max_t max_iter volume s)
                                  (rng w)) in
       nth_error (t_list R) i = Some (out_t o) /\
       nth_error (x_list R) i = Some (out_X o) /\
       nth_error (status_list R) i = Some (out_status o)) /\
    (forall i j s,
       nth_error (seeds_used seed n_rep) i = Some s ->
       nth_error (seeds_used seed n_rep) j = Some s ->
       nth_error (t_list R) i = nth_error (t_list R) j /\
       nth_error (x_list R) i = nth_error (x_list R) j /\
       nth_error (status_list R) i = nth_error (status_list R) j).
Proof.
  intros Hdet Hseed.
  do 2 eexists. split.
  { rewrite simulate_run, (seed_mismatch_false seed n_rep Hseed).
    cbn [String.eqb Ascii.eqb Bool.eqb]. reflexivity. }
  cbn [collect t_list x_list status_list].
  rewrite (run_engine_seed_determined direct_naive Hdet).
  assert (Hat : forall i s,
            nth_error (seeds_used seed n_rep) i = Some s ->
            nth_error
              (map (fun a => fst (direct_naive a (rng w)))
                 (map (engine_args self max_t max_iter volume)
                    (seeds_used seed n_rep))) i
            = Some (fst (direct_naive
                           (engine_args self max_t max_iter volume s)
                           (rng w)))).
  { intros i s Hs. now rewrite !nth_error_map, Hs. }
  split.
  - intros i s Hs. cbv zeta.
    rewrite (nth_error_map out_t), (nth_error_map out_X),
      (nth_error_map out_status), (Hat i s Hs).
    repeat split.
  - intros i j s Hi Hj.
    rewrite !(nth_error_map out_t), !(nth_error_map out_X),
      !(nth_error_map out_status), (Hat i s Hi), (Hat j s Hj).
    repeat split.
Qed.

Lemma equal_seeds_equal_results_witness :
  exists R w',
    simulate unit Fixtures.engine0 10%float 1000 1%float (Some [5; 7; 5]) 3
             "direct_naive" (Fixtures.sim0, Fixtures.w0)
    = (Ok tt, (set_results Fixtures.sim0 (Some R), w')) /\
    nth_error (t_list R) 0 = nth_error (t_list R) 2.
Proof.
  destruct (equal_seeds_equal_results unit Fixtures.engine0 Fixtures.sim0
              Fixtures.w0 10%float 1000 1%float (Some [5; 7; 5]) 3)
    as (R & w' & Hrun & _ & Heq).
  - intros a g1 g2. reflexivity.
  - intros l [= <-]. reflexivity.
  - exists R, w'. split; [exact Hrun|].
    exact (proj1 (Heq 0%nat 2%nat 5 eq_refl eq_refl)).
Defined.

(** ** Plotting *)

Lemma getitem_from_start {A} (p l : list A) :
  Forall2 (fun i x => getitem (p ++ l) i = inr x)
          (map Z.of_nat (seq (length p) (length l))) l.
Proof.
  revert p. induction l as [|x l IH]; intros p; [constructor|].
  cbn [length seq map]. constructor.
  - apply getitem_nth_error.
    rewrite nth_error_app2 by lia. now rewrite Nat.sub_diag.
  - specialize (IH (p ++ [x])).
    rewrite <- app_assoc, length_app in IH. cbn [length app] in IH.
    now rewrite Nat.add_1_r in IH.
Qed.

Lemma range_of_nat (n : nat) : Py.range (Z.of_nat n) = map Z.of_nat (seq 0 n).
Proof. unfold Py.range. now rewrite Nat2Z.id. Qed.




Lemma np_column_within (X : list (list Z)) (j : nat) :
  Forall (fun r => (j < length r)%nat) X ->
  np_column X (Z.of_nat j) = inr (map (fun r => nth j r 0) X).
Proof.
  intros H. unfold np_column.
  replace (forallb _ X) with true.
  - f_equal. apply map_ext. intros r.
    destruct (Z.ltb_spec (Z.of_nat j) 0); [lia|]. now rewrite Nat2Z.id.
  - symmetry. apply forallb_forall. intros r Hr.
    rewrite Forall_forall in H. specialize (H r Hr).
    apply andb_true_iff. split; [apply Z.leb_le | apply Z.ltb_lt]; lia.
Qed.

Lemma draw_nil (cv : canvas) : draw cv [] = cv.
Proof. destruct cv. unfold draw. cbn. now rewrite app_nil_r. Qed.

Lemma draw_draw (cv : canvas) (l l' : list Line) :
  draw (draw cv l) l' = draw cv (l ++ l').
Proof. unfold draw. cbn. now rewrite app_assoc. Qed.




Lemma Forall2_Forall_combine {A B} (P : A -> B -> Prop)
    (l1 : list A) (l2 : list B) :
  Forall2 P l1 l2 -> Forall (fun p => P (fst p) (snd p)) (combine l1 l2).
Proof.
  induction 1; cbn [combine]; constructor; assumption.
Qed.

Section PlotLoops.

Variable self : Simulation.
Variable res : Results.
Variable colors : list string.



Lemma plot_line_drawn (ind : Z) (j : nat) (cv : canvas)
    (t : list float) (X : list (list Z)) :
  getitem (t_list res) ind = inr t ->
  getitem (x_list res) ind = inr X ->
  length t = length X ->
  Forall (fun r => (j < length r)%nat) X ->
  (j < length colors)%nat ->
  plot_line self res colors ind (Z.of_nat j) cv
  = (Ok tt,
     draw cv [mk_Line t (map (fun r => nth j r 0) X) (nth j colors "")]).
Proof.
  intros Ht HX Hlen Hcol Hj. unfold plot_line.
  rewrite bind_lift, Ht, bind_lift, HX, bind_lift, (np_column_within X j Hcol).
  rewrite bind_lift.
  destruct (nth_error colors j) as [c|] eqn:Ec;
    [|apply nth_error_None in Ec; lia].
  rewrite (getitem_nth_error colors j c Ec).
  unfold plt_plot. rewrite length_map, Hlen, Nat.eqb_refl. cbn [negb].
  now rewrite (nth_error_nth colors j "" Ec).
Qed.

(** The inner loop on a replicate that has as many times as states, whose
    states have the columns and for which the cycle has the colours. *)
Lemma plot_species_drawn (ind : Z) (t : list float) (X : list (list Z))
    (js : list nat) :
  getitem (t_list res) ind = inr t ->
  getitem (x_list res) ind = inr X ->
  length t = length X ->
  Forall (fun j => Forall (fun r => (j < length r)%nat) X
                   /\ (j < length colors)%nat) js ->
  forall cv,
    for_each (map Z.of_nat js)
             (fun index2 _ => plot_line self res colors ind index2) tt cv
    = (Ok tt,
       draw cv (map (fun j => mk_Line t (map (fun r => nth j r 0) X)
                                      (nth j colors "")) js)).
Proof.
  intros Ht HX Hlen. induction 1 as [|j js [Hcol Hj] _ IH]; intros cv.
  - cbn. now rewrite draw_nil.
  - cbn [map for_each]. unfold bind.
    rewrite (plot_line_drawn ind j cv t X Ht HX Hlen Hcol Hj).
    rewrite IH, draw_draw. reflexivity.
Qed.


End PlotLoops.

Lemma Forall2_combine {A B C} (P : A -> B -> Prop) (Q : A -> C -> Prop)
    (idx : list A) (l1 : list B) (l2 : list C) :
  Forall2 P idx l1 -> Forall2 Q idx l2 ->
  Forall2 (fun i p => P i (fst p) /\ Q i (snd p)) idx (combine l1 l2).
Proof.
  intros H. revert l2. induction H as [|i x idx l1 Hx _ IH]; intros l2 H2.
  - inversion H2. constructor.
  - inversion H2; subst. cbn [combine]. constructor; [now split|].
    now apply IH.
Qed.

(** The outer loop of [plot] over replicates that have as many times as
    states, the states being those of [ns] species, with colours enough. *)
Lemma plot_replicates_drawn (self : Simulation) (res : Results)
    (colors : list string) (ns : nat) (idx : list Z)
    (pairs : list (list float * list (list Z))) :
  Forall2 (fun i tX => getitem (t_list res) i = inr (fst tX) /\
                       getitem (x_list res) i = inr (snd tX)) idx pairs ->
  Forall (fun tX => length (fst tX) = length (snd tX)) pairs ->
  Forall (fun tX => states_of ns (snd tX)) pairs ->
  (ns <= length colors)%nat ->
  forall cv,
    for_each idx
      (fun ind _ =>
         for_each (Py.range (Z.of_nat ns))
           (fun index2 _ => plot_line self res colors ind index2) tt)
      tt cv
    = (Ok tt,
       draw cv
         (flat_map (fun tX : list float * list (list Z) =>
                      map (fun j => mk_Line (fst tX)
                                     (map (fun r => nth j r 0) (snd tX))
                                     (nth j colors ""))
                          (seq 0 ns)) pairs)).
Proof.
  intros H2 Hlen Hst Hns. rewrite range_of_nat.
  induction H2 as [|i tX idx pairs [Ht HX] _ IH]; intros cv.
  - cbn. now rewrite draw_nil.
  - apply Forall_cons_iff in Hst. destruct Hst as [[_ Hrows] Hst].
    apply Forall_cons_iff in Hlen. destruct Hlen as [Hl Hlen].
    cbn [for_each flat_map]. unfold bind at 1.
    rewrite (plot_species_drawn self res colors i (fst tX) (snd tX)
               (seq 0 ns) Ht HX Hl).
    + rewrite (IH Hlen Hst), draw_draw. reflexivity.
    + apply Forall_forall. intros j Hj. apply in_seq in Hj. split; [|lia].
      eapply Forall_impl; [|exact Hrows]. cbv beta. intros r ->. lia.
Qed.

Lemma lines_of_length (colors : list string) (ns : nat) (res : Results) :
  length (t_list res) = length (x_list res) ->
  length (lines_of colors ns res) = (length (t_list res) * ns)%nat.
Proof.
  unfold lines_of. intros Hlen.
  assert (H : length (combine (t_list res) (x_list res))
              = length (t_list res))
    by (rewrite length_combine; lia).
  rewrite <- H. clear H Hlen.
  induction (combine (t_list res) (x_list res)) as [|tX l IH];
    [reflexivity|].
  cbn [flat_map length]. rewrite length_app, length_map, length_seq, IH.
  lia.
Qed.

(** X12.  On an instance whose results hold, for every replicate, as many
    times as states, the states being those of the instance's [_ns]
    species, and with at least [_ns] colours in the cycle, [plot] returns:
    it prints the colours, draws for every replicate in turn one line per
    species in turn, which makes the number of replicates times [_ns]
    lines, each the replicate's times against the species' counts in the
    colour of the species' index, and calls [plt.show()] once if [disp]
    holds and not at all otherwise. *)
Theorem plot_draws_every_species
    (self : Simulation) (res : Results) (disp : bool) (cv : canvas) :
  _results self = Some res ->
  length (t_list res) = length (status_list res) ->
  times_match_states res ->
  Forall (states_of (_ns self)) (x_list res) ->
  (_ns self <= length (cycle_colors cv))%nat ->
  plot self disp cv = (Ok tt, canvas_after cv (_ns self) res disp) /\
  length (lines_of (cycle_colors cv) (_ns self) res)
  = (length (status_list res) * _ns self)%nat.
Proof.
  intros Hres Ht Hm Hst Hns.
  pose proof (Forall2_length Hm) as HX. split.
  - unfold plot. rewrite Hres. unfold bind at 1. unfold get_canvas.
    unfold bind at 1. unfold print_colors, modify.
    unfold bind at 1.
    rewrite (plot_replicates_drawn self res (cycle_colors cv) (_ns self)
               _ (combine (t_list res) (x_list res))).
    + destruct disp; reflexivity.
    + rewrite range_of_nat.
      apply (Forall2_combine
               (fun i t => getitem (t_list res) i = inr t)
               (fun i X => getitem (x_list res) i = inr X)).
      * rewrite <- Ht. exact (getitem_from_start [] (t_list res)).
      * rewrite <- Ht, HX. exact (getitem_from_start [] (x_list res)).
    + exact (Forall2_Forall_combine _ _ _ Hm).
    + apply Forall_forall. intros [t X] Hin. apply in_combine_r in Hin.
      rewrite Forall_forall in Hst. now apply Hst.
    + exact Hns.
  - rewrite lines_of_length by exact HX. now rewrite Ht.
Qed.

Lemma plot_draws_every_species_witness :
  plot PlotFixtures.sim2 true PlotFixtures.cv0
  = (Ok tt,
     mk_canvas PlotFixtures.tab10 [PlotFixtures.tab10]
       [mk_Line [0%float] [100] "#1f77b4"; mk_Line [0%float] [0] "#ff7f0e";
        mk_Line [0%float] [0] "#2ca02c"; mk_Line [0%float] [100] "#1f77b4";
        mk_Line [0%float] [0] "#ff7f0e"; mk_Line [0%float] [0] "#2ca02c"]
       1).
Proof.
  refine (proj1 (plot_draws_every_species PlotFixtures.sim2 _ true
                   PlotFixtures.cv0 eq_refl eq_refl _ _ _)).
  - repeat constructor.
  - repeat constructor; discriminate.
  - vm_compute. lia.
Defined.



(** One time against two states: matplotlib's [ValueError] at the first
    line, with its message, and nothing drawn or shown. *)
Example plot_times_and_states_differ :
  plot (set_results Fixtures.sim0
          (Some (mk_Results [[0%float]] [[[100; 0; 0]; [99; 1; 0]]] [1]
                            "direct_naive" [0])))
       true PlotFixtures.cv0
  = (Raise (Py.ValueError
       "x and y must have same first dimension, but have shapes (1,) and (2,)"),
     mk_canvas PlotFixtures.tab10 [PlotFixtures.tab10] [] 0).
Proof. reflexivity. Qed.

(** X11.  [plot] on an instance without results raises the [ValueError] of the
    missing run and touches nothing: so it does on an instance fresh from
    the constructor, and still after a [simulate] on it that raised. *)
Theorem plot_before_simulate
    (G : Type) (direct_naive : EngineArgs -> G -> EngineOut * G)
    (a : InitArgs) (w w' : world G) (self : Simulation)
    (disp : bool) (cv : canvas) :
  construct a w = (Ok self, w') ->
  plot self disp cv = (Raise (Py.ValueError "Simulate not run."), cv) /\
  forall max_t max_iter volume seed n_rep algorithm e,
    fst (simulate G direct_naive max_t max_iter volume seed n_rep algorithm
                  (self, w')) = Raise e ->
    plot (fst (snd (simulate G direct_naive max_t max_iter volume seed n_rep
                             algorithm (self, w')))) disp cv
    = (Raise (Py.ValueError "Simulate not run."), cv).
Proof.
  intros H. apply construct_Ok in H. destruct H as [-> ->].
  split; [reflexivity|].
  intros max_t max_iter volume seed n_rep algorithm e.
  rewrite simulate_run.
  destruct (seed_mismatch seed n_rep); [reflexivity|].
  destruct (String.eqb algorithm "direct_naive"); [discriminate|reflexivity].
Qed.

Lemma plot_before_simulate_witness :
  plot Fixtures.sim0 true PlotFixtures.cv0
  = (Raise (Py.ValueError "Simulate not run."), PlotFixtures.cv0).
Proof.
  apply (plot_before_simulate unit Fixtures.engine0
           (Fixtures.basic (Py.Bool false) 1%float) Fixtures.w0 Fixtures.w0
           Fixtures.sim0 true PlotFixtures.cv0).
  reflexivity.
Defined.

(** X14.  After a [simulate] without replicates ([n_rep] zero or less and no
    seed list), [plot] raises nothing although no replicate ever ran: it
    prints the colours, draws no line, whatever the number of species and
    of colours, and calls [plt.show()] if [disp] holds. *)
Theorem plot_without_replicates
    (G : Type) (direct_naive : EngineArgs -> G -> EngineOut * G)
    (self : Simulation) (w : world G) (max_t : float) (max_iter : Z)
    (volume : float) (n_rep : Z) (disp : bool) (cv : canvas) :
  n_rep <= 0 ->
  plot (fst (snd (simulate G direct_naive max_t max_iter volume None n_rep
                           "direct_naive" (self, w)))) disp cv
  = (Ok tt,
     {| cycle_colors := cycle_colors cv;
        printed := printed cv ++ [cycle_colors cv];
        lines := lines cv;
        shown := if disp then S (shown cv) else shown cv |}).
Proof.
  intros Hn. rewrite simulate_run.
  cbn [seed_mismatch seeds_used String.eqb Ascii.eqb Bool.eqb].
  unfold Py.range at 1 2. replace (Z.to_nat n_rep) with 0%nat by lia.
  cbn [seq map run_engine fst snd].
  unfold plot. cbn [_results set_results collect status_list map length].
  destruct disp; reflexivity.
Qed.

Lemma plot_without_replicates_witness :
  plot (fst (snd (simulate unit Fixtures.engine0 10%float 1000 1%float None 0
                           "direct_naive"
                           (instance PlotFixtures.eleven, Fixtures.w0))))
       false PlotFixtures.cv0
  = (Ok tt, mk_canvas PlotFixtures.tab10 [PlotFixtures.tab10] [] 0).
Proof.
  apply (plot_without_replicates unit Fixtures.engine0
           (instance PlotFixtures.eleven) Fixtures.w0 10%float 1000 1%float 0
           false PlotFixtures.cv0).
  lia.
Defined.
